(** * Auto-fix agent: detect, fix, validate

    A shallow embedding of the four scripts of the repository

      - [scripts/agent.py]      Issue, IssueDetector, IssueFixer,
                                WorkflowOrchestrator
      - [scripts/detectors.py]  DetectionResult, DockerDetector, GitDetector,
                                ConfigDetector
      - [scripts/fixers.py]     DockerFixer, ConfigFixer, FixerRegistry
      - [scripts/validators.py] the validators and ValidatorChain

    and the properties of the design document that can be stated about them.

    The Python code talks to the outside through two channels only: the files
    of the workspace (pathlib) and external commands (subprocess.run).  Both
    are part of an explicit [World]; every method is a computation in a state
    and exception monad over it.  Console output (print) is not modelled. *)

From Stdlib Require Import ZArith String Ascii List Bool Lia.
From stdpp Require Import gmap strings list fin_maps pretty.
Import ListNotations.
Open Scope string_scope.
Open Scope list_scope.
Open Scope Z_scope.
Set Warnings "-register-all".

(* ===================================================================== *)
(** * Python strings *)
(* ===================================================================== *)

(** [s.startswith(p)] *)
Fixpoint startswith (p s : string) : bool :=
  match p, s with
  | EmptyString, _ => true
  | String a p', String b s' => Ascii.eqb a b && startswith p' s'
  | String _ _, EmptyString => false
  end.

(** [sub in s] *)
Fixpoint contains (sub s : string) : bool :=
  startswith sub s ||
  match s with
  | EmptyString => false
  | String _ s' => contains sub s'
  end.

(** [s.count(sub)] for a non-empty [sub]: occurrences are counted from the
    left and do not overlap; [skip] is the number of characters of the last
    match that are still to be passed over. *)
Fixpoint count_from (sub s : string) (skip : nat) : Z :=
  match s with
  | EmptyString => 0
  | String _ s' =>
      match skip with
      | S k => count_from sub s' k
      | O => if startswith sub s
             then 1 + count_from sub s' (String.length sub - 1)
             else count_from sub s' 0
      end
  end.

Definition count (sub s : string) : Z := count_from sub s 0.

(** [s.endswith(p)] *)
Definition endswith (p s : string) : bool :=
  startswith (String.rev p) (String.rev s).

(** [c.lower()] and [s.lower()], on ASCII; other bytes are left as they are. *)
Definition lower_ascii (c : ascii) : ascii :=
  let n := nat_of_ascii c in
  if (Nat.leb 65 n && Nat.leb n 90)%bool then ascii_of_nat (n + 32) else c.

Fixpoint lower (s : string) : string :=
  match s with
  | EmptyString => EmptyString
  | String c s' => String (lower_ascii c) (lower s')
  end.

(** Python's ASCII whitespace: space, \t, \n, \v, \f, \r and the separators
    \x1c..\x1f. *)
Definition isspace (c : ascii) : bool :=
  let n := nat_of_ascii c in
  (Nat.eqb n 32 || (Nat.leb 9 n && Nat.leb n 13) || (Nat.leb 28 n && Nat.leb n 31))%bool.

Fixpoint lstrip (s : string) : string :=
  match s with
  | EmptyString => EmptyString
  | String c s' => if isspace c then lstrip s' else s
  end.

(** [s.strip()] *)
Definition strip (s : string) : string :=
  String.rev (lstrip (String.rev (lstrip s))).

(** Truth value of a string: [if s:] *)
Definition nonempty (s : string) : bool :=
  match s with EmptyString => false | String _ _ => true end.

Definition str_eqb (a b : string) : bool := bool_decide (a = b).

(** [x in [a, b, ...]] for strings *)
Definition str_in (x : string) (l : list string) : bool :=
  existsb (str_eqb x) l.

(* ===================================================================== *)
(** * Python values *)
(* ===================================================================== *)

(** The values that [json.loads] produces, which are also the values that
    end up in the untyped fields of the dataclasses ([Any], and fields whose
    annotation Python does not enforce).  A dictionary keeps its insertion
    order.  Floating-point numbers are not modelled. *)
Inductive value : Type :=
  | VNone
  | VBool (b : bool)
  | VInt (n : Z)
  | VStr (s : string)
  | VList (l : list value)
  | VDict (d : list (string * value)).

(** Truth value: [if v:] and [not v]. *)
Definition truthy (v : value) : bool :=
  match v with
  | VNone => false
  | VBool b => b
  | VInt n => negb (n =? 0)
  | VStr s => nonempty s
  | VList l => match l with [] => false | _ => true end
  | VDict d => match d with [] => false | _ => true end
  end.

(** [d.get(k)] on the association list of a dictionary. *)
Fixpoint dict_get (k : string) (d : list (string * value)) : option value :=
  match d with
  | [] => None
  | (k', v) :: d' => if str_eqb k k' then Some v else dict_get k d'
  end.

(* ===================================================================== *)
(** * Exceptions and the monad *)
(* ===================================================================== *)

(** The subclasses of [Exception] the scripts can meet.  [KeyboardInterrupt]
    and [SystemExit], which are not [Exception]s, are asynchronous signals
    of the interpreter and outside the model. *)
Inductive exn_class : Type :=
  | FileNotFoundError
  | TimeoutExpired
  | CalledProcessError
  | JSONDecodeError
  | AttributeError
  | TypeError
  | OtherException.

(** An exception object: its class and [str(e)]. *)
Record exn : Type := Exn { exn_cls : exn_class; exn_str : string }.

Definition is_FileNotFoundError (e : exn) : bool :=
  match exn_cls e with FileNotFoundError => true | _ => false end.

Inductive result (A : Type) : Type :=
  | Ok (a : A)
  | Raise (e : exn).
Arguments Ok {A} a.
Arguments Raise {A} e.

(** A computation over a mutable state [St] that returns or raises.  The
    state survives an exception, as the heap and the file system do in
    Python. *)
Definition M (St A : Type) : Type := St -> result A * St.

Definition ret {St A} (a : A) : M St A := fun s => (Ok a, s).

Definition bind {St A B} (m : M St A) (k : A -> M St B) : M St B :=
  fun s => match m s with
           | (Ok a, s') => k a s'
           | (Raise e, s') => (Raise e, s')
           end.

Definition raise {St A} (e : exn) : M St A := fun s => (Raise e, s).

Definition get {St} : M St St := fun s => (Ok s, s).
Definition modify {St} (f : St -> St) : M St unit := fun s => (Ok tt, f s).

(** [try: m  except Exception as e: h e] *)
Definition try_except {St A} (m : M St A) (h : exn -> M St A) : M St A :=
  fun s => match m s with
           | (Ok a, s') => (Ok a, s')
           | (Raise e, s') => h e s'
           end.

(** Run a computation on a part of the state. *)
Definition zoom {St Sub A} (proj : St -> Sub) (upd : Sub -> St -> St)
    (m : M Sub A) : M St A :=
  fun s => match m (proj s) with (r, sub) => (r, upd sub s) end.

(** Run a block that owns a local variable, initialised to [l0]; the value of
    the block is the final value of the variable ([return l]). *)
Definition with_local {St L} (l0 : L) (m : M (L * St) unit) : M St L :=
  fun s => match m (l0, s) with
           | (Ok _, (l, s')) => (Ok l, s')
           | (Raise e, (_, s')) => (Raise e, s')
           end.

(** The outer state, seen from inside such a block. *)
Definition outer {St L A} (m : M St A) : M (L * St) A :=
  zoom snd (fun s' p => (fst p, s')) m.

(** The local variable, seen from inside the block. *)
Definition local {St L A} (m : M L A) : M (L * St) A :=
  zoom fst (fun l' p => (l', snd p)) m.

Declare Scope monad_scope.
Delimit Scope monad_scope with monad.
Notation "x <- m ;; k" := (bind m (fun x => k))
  (at level 100, m at next level, right associativity) : monad_scope.
Notation "m ;; k" := (bind m (fun _ => k))
  (at level 100, right associativity) : monad_scope.
Open Scope monad_scope.

(** [if c: m] *)
Definition when {St} (c : bool) (m : M St unit) : M St unit :=
  if c then m else ret tt.

(** [for x in l: body x] *)
Fixpoint for_each {St A} (l : list A) (body : A -> M St unit) : M St unit :=
  match l with
  | [] => ret tt
  | x :: l' => body x ;; for_each l' body
  end.

(** [l.append(x)] on a list held in the state. *)
Definition append {A} (x : A) : M (list A) unit := modify (fun l => l ++ [x]).

(* ===================================================================== *)
(** * The world: workspace files and external commands *)
(* ===================================================================== *)

(** One [subprocess.run] call: the argument vector and the [cwd] keyword. *)
Record Call : Type := { argv : list string; cwd : option string }.

(** The object [subprocess.run] returns. *)
Record CompletedProcess : Type :=
  { returncode : Z; stdout : string; stderr : string }.

(** What a command does: it completes, or the call raises (the program is
    missing: FileNotFoundError; it runs over its [timeout]: TimeoutExpired;
    anything else). *)
Inductive outcome : Type :=
  | Completed (p : CompletedProcess)
  | Failed (e : exn).

(** The files of the workspace are a finite map from paths relative to the
    workspace root to their text.  External commands are an oracle [os]: the
    [n]-th call of the run, on the files as they are, has an outcome and
    leaves new files behind.  Whether a call times out, what a tool prints and
    what it rewrites are all decided by the oracle; [history] records the
    calls made so far. *)
Record World : Type :=
  { files : gmap string string;
    history : list Call;
    os : nat -> Call -> gmap string string -> outcome * gmap string string }.

(** Running a command: the oracle is asked, the files are replaced by what
    the command leaves and the call is recorded. *)
Definition exec (c : Call) (w : World) : outcome * World :=
  let '(o, fs) := os w (length (history w)) c (files w) in
  (o, {| files := fs; history := history w ++ [c]; os := os w |}).

(** [subprocess.run(argv, cwd=..., check=...)].  With [check=True] a
    non-zero return code raises CalledProcessError. *)
Definition subprocess_run (args : list string) (dir : option string)
    (check : bool) : M World CompletedProcess :=
  fun w =>
    let '(o, w') := exec {| argv := args; cwd := dir |} w in
    match o with
    | Completed p =>
        if check && negb (returncode p =? 0)
        then (Raise (Exn CalledProcessError "Command returned non-zero exit status"), w')
        else (Ok p, w')
    | Failed e => (Raise e, w')
    end.

(** [(workspace / rel).exists()] *)
Definition path_exists (rel : string) : M World bool :=
  fun w => (Ok (match files w !! rel with Some _ => true | None => false end), w).

(** [(workspace / rel).read_text()] of a file that exists; a missing file
    raises FileNotFoundError. *)
Definition read_text (rel : string) : M World string :=
  fun w => match files w !! rel with
           | Some t => (Ok t, w)
           | None => (Raise (Exn FileNotFoundError rel), w)
           end.

(** [(workspace / rel).write_text(t)] *)
Definition write_text (rel t : string) : M World unit :=
  modify (fun w => {| files := <[rel := t]> (files w);
                      history := history w; os := os w |}).

(** The paths of the files of the workspace, in the order the map lists them
    (pathlib promises no order).  Directories are not entries of their
    own. *)
Definition listing (w : World) : list string := map fst (map_to_list (files w)).

(** [workspace.glob("requirements*.txt")]: entries of the root directory. *)
Definition is_requirements (p : string) : bool :=
  negb (contains "/" p) && startswith "requirements" p && endswith ".txt" p
  && Nat.leb (String.length "requirements.txt") (String.length p).

Definition glob_requirements : M World (list string) :=
  fun w => (Ok (List.filter is_requirements (listing w)), w).

(** [workspace.rglob("*.py")]: files of any depth. *)
Definition rglob_py : M World (list string) :=
  fun w => (Ok (List.filter (endswith ".py") (listing w)), w).

(** [str(workspace / rel)] for a workspace given as [str(Path(workspace))]. *)
Definition joinpath (ws rel : string) : string :=
  if str_eqb ws "." then rel
  else if endswith "/" ws then ws +:+ rel
  else ws +:+ "/" +:+ rel.

Definition newline : string := String (ascii_of_nat 10) EmptyString.

(* ===================================================================== *)
(** * Data model *)
(* ===================================================================== *)

(** [agent.Issue].  The annotations of a dataclass are not enforced: the
    security detector stores in [file], [line] and [message] whatever the
    scanner's JSON holds.  [fix_command] defaults to [None]. *)
Record Issue : Type :=
  { issue_type : string;
    severity : string;
    file : value;
    line : value;
    message : value;
    fixable : bool;
    fix_command : option string }.

(** The [__init__] that [@dataclass] generates: it stores its arguments and
    checks nothing (the class has no [__post_init__]). *)
Definition Issue_init (issue_type severity : string) (file line message : value)
    (fixable : bool) (fix_command : option string) : Issue :=
  {| issue_type := issue_type; severity := severity; file := file;
     line := line; message := message; fixable := fixable;
     fix_command := fix_command |}.

Module IssueDetector.
Record t : Type := { workspace : string; issues : list Issue }.
Definition init (workspace : string) : t :=
  {| workspace := workspace; issues := [] |}.
Definition set_issues (l : list Issue) (self : t) : t :=
  {| workspace := workspace self; issues := l |}.
End IssueDetector.

Module IssueFixer.
Record t : Type := { workspace : string; fixed_count : Z }.
Definition init (workspace : string) : t :=
  {| workspace := workspace; fixed_count := 0 |}.
Definition add_fixed (n : Z) (self : t) : t :=
  {| workspace := workspace self; fixed_count := fixed_count self + n |}.
End IssueFixer.

Module WorkflowOrchestrator.
Record t : Type :=
  { workspace : string; detector : IssueDetector.t; fixer : IssueFixer.t }.
Definition init (workspace : string) : t :=
  {| workspace := workspace;
     detector := IssueDetector.init workspace;
     fixer := IssueFixer.init workspace |}.
Definition set_detector (d : IssueDetector.t) (self : t) : t :=
  {| workspace := workspace self; detector := d; fixer := fixer self |}.
Definition set_fixer (f : IssueFixer.t) (self : t) : t :=
  {| workspace := workspace self; detector := detector self; fixer := f |}.
End WorkflowOrchestrator.

(** [detectors.DetectionResult] *)
Module DetectionResult.
Record t : Type :=
  { category : string;
    found : bool;
    count : Z;
    details : gmap string value;
    severity : string }.
End DetectionResult.

(** A method runs on the pair of its object and the world. *)
Definition this {C W A} (m : M C A) : M (C * W) A := local m.
Definition world {C W A} (m : M W A) : M (C * W) A := outer m.

(** A method of the object held in a field. *)
Definition field {C F W A} (proj : C -> F) (upd : F -> C -> C)
    (m : M (F * W) A) : M (C * W) A :=
  zoom (fun s => (proj (fst s), snd s))
       (fun s' s => (upd (fst s') (fst s), snd s')) m.

(* ===================================================================== *)
(** * Operations on Python values that can raise *)
(* ===================================================================== *)

(** [v.get(k, default)]: only a dictionary has [get]. *)
Definition py_get {St} (v : value) (k : string) (default : value) : M St value :=
  match v with
  | VDict d => ret (match dict_get k d with Some x => x | None => default end)
  | _ => raise (Exn AttributeError "object has no attribute 'get'")
  end.

(** [v.lower()]: only a string has [lower]. *)
Definition py_lower {St} (v : value) : M St string :=
  match v with
  | VStr s => ret (lower s)
  | _ => raise (Exn AttributeError "object has no attribute 'lower'")
  end.

Fixpoint chars (s : string) : list value :=
  match s with
  | EmptyString => []
  | String c s' => VStr (String c EmptyString) :: chars s'
  end.

(** [for x in v]: the elements of a list, the keys of a dictionary, the
    characters of a string; nothing else is iterable. *)
Definition py_iter {St} (v : value) : M St (list value) :=
  match v with
  | VList l => ret l
  | VDict d => ret (map (fun kv => VStr (fst kv)) d)
  | VStr s => ret (chars s)
  | _ => raise (Exn TypeError "object is not iterable")
  end.

(** [len(v)] *)
Definition py_len {St} (v : value) : M St nat :=
  match v with
  | VList l => ret (length l)
  | VDict d => ret (length d)
  | VStr s => ret (String.length s)
  | _ => raise (Exn TypeError "object has no len()")
  end.

(* ===================================================================== *)
(** * agent.py: the findings of IssueDetector *)
(* ===================================================================== *)

(** The [Issue(...)] expressions of the four detectors, in the order of the
    source. *)
Definition formatting_issue (ws : string) : Issue :=
  Issue_init "formatting" "low" (VStr "(multiple)") (VInt 0)
    (VStr "Code not formatted according to Black standards")
    true (Some ("black " +:+ ws)).

Definition imports_issue (ws : string) : Issue :=
  Issue_init "imports" "low" (VStr "(multiple)") (VInt 0)
    (VStr "Imports not sorted correctly")
    true (Some ("isort " +:+ ws)).

(** [fix_command] is left to its default. *)
Definition security_issue (sev : string) (filename line_number issue_text : value) : Issue :=
  Issue_init "security" sev filename line_number issue_text false None.

Definition linting_issue (ws : string) : Issue :=
  Issue_init "linting" "medium" (VStr "(multiple)") (VInt 0)
    (VStr "Linting issues detected")
    true (Some ("pylint --rcfile=/dev/null " +:+ ws +:+ " --fix-imports=y")).

Definition dependencies_issue (ws req_file : string) (n : nat) : Issue :=
  Issue_init "dependencies" "medium" (VStr (joinpath ws req_file)) (VInt 0)
    (VStr (pretty n +:+ " outdated dependencies found"))
    true (Some ("pip install --upgrade pip && pip install -r "
                +:+ joinpath ws req_file +:+ " --upgrade")).

Definition npm_issue : Issue :=
  Issue_init "npm-dependencies" "medium" (VStr "package.json") (VInt 0)
    (VStr "Outdated npm packages found")
    true (Some "npm update").

Section Agent.

(** [json.loads] of the standard library, taken as given: the value a text
    denotes, or [None] where Python raises JSONDecodeError. *)
Variable json_loads : string -> option value.

Definition loads {St} (text : string) : M St value :=
  match json_loads text with
  | Some v => ret v
  | None => raise (Exn JSONDecodeError "Expecting value")
  end.

(* ===================================================================== *)
(** * agent.py: IssueDetector *)
(* ===================================================================== *)

(** Both handlers of the detectors, [except FileNotFoundError: pass] and
    [except Exception as e: print(...)], go on to [return issues]. *)
Definition swallow {St} (e : exn) : M St unit := ret tt.

Definition detect_formatting_issues (self : IssueDetector.t) : M World (list Issue) :=
  let ws := IssueDetector.workspace self in
  with_local [] (
    try_except (
      result <- world (subprocess_run ["black"; "--check"; "--quiet"; ws] None false) ;;
      when (negb (returncode result =? 0)) (
        this (append (formatting_issue ws))) ;;
      result <- world (subprocess_run ["isort"; "--check-only"; "--quiet"; ws] None false) ;;
      when (negb (returncode result =? 0)) (
        this (append (imports_issue ws)))
    ) swallow).

(** The body of the loop over the scanner's results. *)
Definition scan_result (issue : value) : M (list Issue * World) unit :=
  sev <- py_get issue "severity" (VStr "medium") ;;
  sev <- py_lower sev ;;
  f <- py_get issue "filename" (VStr "unknown") ;;
  l <- py_get issue "line_number" (VInt 0) ;;
  m <- py_get issue "issue_text" (VStr "Security issue detected") ;;
  this (append (security_issue sev f l m)).

Definition detect_security_issues (self : IssueDetector.t) : M World (list Issue) :=
  let ws := IssueDetector.workspace self in
  with_local [] (
    try_except (
      result <- world (subprocess_run ["bandit"; "-r"; ws; "-f"; "json"; "-q"] None false) ;;
      when (nonempty (stdout result)) (
        data <- loads (stdout result) ;;
        results <- py_get data "results" (VList []) ;;
        items <- py_iter results ;;
        for_each items scan_result)
    ) swallow).

Definition detect_linting_issues (self : IssueDetector.t) : M World (list Issue) :=
  let ws := IssueDetector.workspace self in
  with_local [] (
    try_except (
      py_files <- world rglob_py ;;
      match py_files with
      | [] => ret tt
      | _ =>
        result <- world (subprocess_run
                    ("pylint" :: map (joinpath ws) (firstn 10 py_files)) None false) ;;
        let output := stdout result +:+ stderr result in
        when (contains "error" (lower output) || contains "warning" (lower output)) (
          this (append (linting_issue ws)))
      end
    ) swallow).

(** The body of the loop over the requirements files. *)
Definition check_requirements (ws req_file : string) : M (list Issue * World) unit :=
  try_except (
    result <- world (subprocess_run ["pip"; "list"; "--outdated"; "--format"; "json"] None false) ;;
    when (nonempty (stdout result)) (
      outdated <- loads (stdout result) ;;
      when (truthy outdated) (
        n <- py_len outdated ;;
        this (append (dependencies_issue ws req_file n))))
  ) swallow.

Definition detect_dependency_issues (self : IssueDetector.t) : M World (list Issue) :=
  let ws := IssueDetector.workspace self in
  with_local [] (
    req_files <- world glob_requirements ;;
    for_each req_files (check_requirements ws) ;;
    has_package_json <- world (path_exists "package.json") ;;
    when has_package_json (
      try_except (
        result <- world (subprocess_run ["npm"; "outdated"; "--json"] (Some ws) false) ;;
        when (nonempty (stdout result) && negb (str_eqb (stdout result) "{}")) (
          this (append npm_issue))
      ) swallow)).

Definition run_all_detectors : M (IssueDetector.t * World) (list Issue) :=
  self <- this get ;;
  let all_issues := [] in
  found <- world (detect_formatting_issues self) ;;
  let all_issues := all_issues ++ found in
  found <- world (detect_linting_issues self) ;;
  let all_issues := all_issues ++ found in
  found <- world (detect_security_issues self) ;;
  let all_issues := all_issues ++ found in
  found <- world (detect_dependency_issues self) ;;
  let all_issues := all_issues ++ found in
  this (modify (IssueDetector.set_issues all_issues)) ;;
  ret all_issues.

(* ===================================================================== *)
(** * agent.py: IssueFixer *)
(* ===================================================================== *)

Definition fix_formatting : M (IssueFixer.t * World) bool :=
  try_except (
    self <- this get ;;
    let ws := IssueFixer.workspace self in
    world (subprocess_run ["black"; ws] None true) ;;
    world (subprocess_run ["isort"; ws] None true) ;;
    this (modify (IssueFixer.add_fixed 2)) ;;
    ret true
  ) (fun e => ret false).

Definition fix_dependencies : M (IssueFixer.t * World) bool :=
  try_except (
    self <- this get ;;
    let ws := IssueFixer.workspace self in
    req_files <- world glob_requirements ;;
    for_each req_files (fun req_file =>
      world (subprocess_run
        ["pip"; "install"; "-r"; joinpath ws req_file; "--upgrade"] None true) ;;
      ret tt) ;;
    has_package_json <- world (path_exists "package.json") ;;
    when has_package_json (
      world (subprocess_run ["npm"; "update"] (Some ws) true) ;; ret tt) ;;
    this (modify (IssueFixer.add_fixed 1)) ;;
    ret true
  ) (fun e => ret false).

Definition is_formatting_issue (i : Issue) : bool :=
  str_in (issue_type i) ["formatting"; "imports"].

Definition is_dep_issue (i : Issue) : bool :=
  str_in (issue_type i) ["dependencies"; "npm-dependencies"].

(** Truth value of a list: [if l:] *)
Definition some {A} (l : list A) : bool :=
  match l with [] => false | _ :: _ => true end.

Definition apply_fixes (issues : list Issue) : M (IssueFixer.t * World) Z :=
  let formatting_issues := List.filter is_formatting_issue issues in
  let dep_issues := List.filter is_dep_issue issues in
  when (some formatting_issues) (fix_formatting ;; ret tt) ;;
  when (some dep_issues) (fix_dependencies ;; ret tt) ;;
  self <- this get ;;
  ret (IssueFixer.fixed_count self).

(* ===================================================================== *)
(** * agent.py: WorkflowOrchestrator *)
(* ===================================================================== *)

Definition detector_run_all_detectors : M (WorkflowOrchestrator.t * World) (list Issue) :=
  field WorkflowOrchestrator.detector WorkflowOrchestrator.set_detector
        run_all_detectors.

Definition fixer_apply_fixes (issues : list Issue) : M (WorkflowOrchestrator.t * World) Z :=
  field WorkflowOrchestrator.fixer WorkflowOrchestrator.set_fixer
        (apply_fixes issues).

(** [run]: the banner, the report of the findings and the summary are
    console output only. *)
Definition run : M (WorkflowOrchestrator.t * World) bool :=
  issues <- detector_run_all_detectors ;;
  if negb (some issues) then ret true
  else
    fixed_count <- fixer_apply_fixes issues ;;
    ret true.

End Agent.

(* ===================================================================== *)
(** * detectors.py: DockerDetector *)
(* ===================================================================== *)

(** [sum(not v for v in d.values())] *)
Definition count_unmet (d : gmap string value) : Z :=
  map_fold (fun _ v n => n + (if truthy v then 0 else 1)) 0 d.

Definition detect_docker_best_practices : M World DetectionResult.t :=
  let issues : gmap string value :=
    <["security_scan" := VBool false]>
      (<["layer_caching" := VBool false]>
         (<["multi_stage" := VBool false]> ∅)) in
  has_dockerfile <- path_exists "Dockerfile" ;;
  issues <-
    (if has_dockerfile : bool then
       content <- read_text "Dockerfile" ;;
       let issues := <["multi_stage" :=
                         VBool (contains "FROM" content && (1 <? count "FROM" content))]> issues in
       let issues := <["layer_caching" := VBool (contains "RUN" content)]> issues in
       ret issues
     else ret issues) ;;
  ret {| DetectionResult.category := "docker";
         DetectionResult.found := true;
         DetectionResult.count := count_unmet issues;
         DetectionResult.details := issues;
         DetectionResult.severity := "medium" |}.

(* ===================================================================== *)
(** * detectors.py: ConfigDetector *)
(* ===================================================================== *)

(** [any(d.values())] *)
Definition any_met (d : gmap string value) : bool :=
  map_fold (fun _ v b => b || truthy v) false d.

(** [sum(d.values())] of a dictionary of booleans. *)
Definition count_met (d : gmap string value) : Z :=
  map_fold (fun _ v n => n + (if truthy v then 1 else 0)) 0 d.

(** The literals searched for in [docker-compose.yml]. *)
Definition password_markers : list string :=
  ["password:"; "MYSQL_ROOT_PASSWORD"; "POSTGRES_PASSWORD"].

Definition detect_config_issues : M World (list DetectionResult.t) :=
  let results := [] in
  has_compose <- path_exists "docker-compose.yml" ;;
  if has_compose : bool then
    content <- read_text "docker-compose.yml" ;;
    let hardcoded_passwords := existsb (fun p => contains p content) password_markers in
    let issues : gmap string value :=
      <["hardcoded_passwords" := VBool hardcoded_passwords]>
        (<["missing_resource_limits" := VBool (negb (contains "deploy" content))]>
           (<["missing_healthcheck" := VBool (negb (contains "healthcheck" content))]> ∅)) in
    ret (results ++
         [ {| DetectionResult.category := "docker-compose";
              DetectionResult.found := any_met issues;
              DetectionResult.count := count_met issues;
              DetectionResult.details := issues;
              DetectionResult.severity :=
                if hardcoded_passwords then "high" else "medium" |} ])
  else ret results.

(* ===================================================================== *)
(** * fixers.py: DockerFixer *)
(* ===================================================================== *)

(** The text between the triple quotes of [default_ignores]. *)
Definition default_ignores : string :=
"
.git
.gitignore
.dockerignore
.env
node_modules
__pycache__
.pytest_cache
.venv
build
dist
*.egg-info
.vscode
.idea
".

Definition optimize_dockerfile : M World bool :=
  has_dockerfile <- path_exists "Dockerfile" ;;
  if negb has_dockerfile then ret false
  else
    content <- read_text "Dockerfile" ;;
    has_dockerignore <- path_exists ".dockerignore" ;;
    if negb has_dockerignore then
      write_text ".dockerignore" (strip default_ignores) ;;
      ret true
    else ret false.

(* ===================================================================== *)
(** * validators.py *)
(* ===================================================================== *)

(** The handlers shared by the three validators:
    [except FileNotFoundError: return True, missing] and
    [except Exception as e: return False, f"Validation error: {str(e)}"]. *)
Definition validator_except (missing : string) (e : exn) : M World (bool * string) :=
  if is_FileNotFoundError e then ret (true, missing)
  else ret (false, "Validation error: " +:+ exn_str e).

Module PythonValidator.
Definition validate (workspace : string) : M World (bool * string) :=
  try_except (
    py_files <- rglob_py ;;
    result <- subprocess_run
                (["python"; "-m"; "py_compile"] ++ map (joinpath workspace) py_files)
                None false ;;
    if negb (returncode result =? 0) then ret (false, "Python syntax errors detected")
    else
      result <- subprocess_run ["pytest"; workspace; "-v"] None false ;;
      if negb (returncode result =? 0)
      then ret (false, "Tests failed:" +:+ newline +:+ stdout result)
      else ret (true, "Python validation passed")
  ) (validator_except "Python validators not available").
End PythonValidator.

Module JavaScriptValidator.
Definition validate (workspace : string) : M World (bool * string) :=
  has_package_json <- path_exists "package.json" ;;
  if negb has_package_json then ret (true, "No JavaScript project found")
  else
    try_except (
      result <- subprocess_run ["npm"; "test"] (Some workspace) false ;;
      if negb (returncode result =? 0)
      then ret (false, "Tests failed:" +:+ newline +:+ stdout result)
      else ret (true, "JavaScript validation passed")
    ) (validator_except "npm not available").
End JavaScriptValidator.

Module DockerValidator.
Definition validate (workspace : string) : M World (bool * string) :=
  try_except (
    has_dockerfile <- path_exists "Dockerfile" ;;
    built <-
      (if has_dockerfile : bool then
         result <- subprocess_run
                     ["docker"; "build"; "-f"; joinpath workspace "Dockerfile";
                      "-t"; "validator:latest"; workspace] None false ;;
         if negb (returncode result =? 0)
         then ret (Some (false, "Docker build failed:" +:+ newline +:+ stderr result))
         else ret None
       else ret None) ;;
    match built with
    | Some early => ret early
    | None =>
      has_compose <- path_exists "docker-compose.yml" ;;
      checked <-
        (if has_compose : bool then
           result <- subprocess_run
                       ["docker"; "compose"; "-f"; joinpath workspace "docker-compose.yml";
                        "config"] (Some workspace) false ;;
           if negb (returncode result =? 0)
           then ret (Some (false, "Docker Compose validation failed:" +:+ newline
                                  +:+ stderr result))
           else ret None
         else ret None) ;;
      match checked with
      | Some early => ret early
      | None => ret (true, "Docker validation passed")
      end
    end
  ) (validator_except "Docker not available for validation").
End DockerValidator.

(** A validator object: its class name and its [validate] method. *)
Record Validator : Type :=
  { class_name : string; validate : M World (bool * string) }.

(** An entry of the list [validate_all] returns: a dictionary with the three
    keys "validator", "passed" and "message". *)
Record ValidationRecord : Type :=
  { validator : string; passed : bool; rec_message : string }.

Module ValidatorChain.

(** [__init__]: the registered validators. *)
Definition validators (workspace : string) : list Validator :=
  [ {| class_name := "PythonValidator"; validate := PythonValidator.validate workspace |};
    {| class_name := "JavaScriptValidator"; validate := JavaScriptValidator.validate workspace |};
    {| class_name := "DockerValidator"; validate := DockerValidator.validate workspace |} ].

(** The locals of [validate_all]: [results] and [all_passed]. *)
Definition validate_one (v : Validator) : M ((list ValidationRecord * bool) * World) unit :=
  try_except (
    r <- world (validate v) ;;
    this (modify (fun l =>
      (fst l ++ [ {| validator := class_name v; passed := fst r;
                     rec_message := snd r |} ], snd l))) ;;
    when (negb (fst r)) (this (modify (fun l => (fst l, false))))
  ) (fun e =>
    this (modify (fun l =>
      (fst l ++ [ {| validator := class_name v; passed := false;
                     rec_message := "Error: " +:+ exn_str e |} ], snd l))) ;;
    this (modify (fun l => (fst l, false)))).

Definition validate_all (validators : list Validator) : M World (bool * list ValidationRecord) :=
  l <- with_local ([], true) (for_each validators validate_one) ;;
  ret (snd l, fst l).

End ValidatorChain.

(* ===================================================================== *)
(** * detectors.py: GitDetector *)
(* ===================================================================== *)

(** [s.split("\n")]: the pieces between the newlines, one more than there are
    newlines. *)
Fixpoint split_lines (s : string) : list string :=
  match s with
  | EmptyString => [EmptyString]
  | String c s' =>
      if Ascii.eqb c (ascii_of_nat 10) then EmptyString :: split_lines s'
      else match split_lines s' with
           | piece :: pieces => String c piece :: pieces
           | [] => [String c EmptyString]
           end
  end.

(** [len(c) > 72 or c.startswith("Merge")] *)
Definition bad_commit (c : string) : bool :=
  Nat.ltb 72 (String.length c) || startswith "Merge" c.

(** The handler is a bare [except:]. *)
Definition detect_commit_quality (workspace : string) : M World DetectionResult.t :=
  try_except (
    result <- subprocess_run ["git"; "log"; "--format=%s"; "-n"; "10"]
                (Some workspace) false ;;
    let commits := split_lines (stdout result) in
    let issues := Z.of_nat (length (List.filter bad_commit commits)) in
    ret {| DetectionResult.category := "git";
           DetectionResult.found := 0 <? issues;
           DetectionResult.count := issues;
           DetectionResult.details :=
             <["total_checked" := VInt (Z.of_nat (length commits))]>
               (<["bad_commits" := VInt issues]> ∅);
           DetectionResult.severity := "low" |}
  ) (fun _ =>
    ret {| DetectionResult.category := "git";
           DetectionResult.found := false;
           DetectionResult.count := 0;
           DetectionResult.details := ∅;
           DetectionResult.severity := "low" |}).

(* ===================================================================== *)
(** * fixers.py: ConfigFixer, FixerRegistry *)
(* ===================================================================== *)

(** The objects that [yaml.safe_load] builds.  A dictionary, a list or a
    set is an object of a heap, known by its address: a YAML alias makes one
    object the value of several keys, and the function updates dictionaries
    where they stand.  The other values are immutable: [None], Booleans,
    integers, strings, and the scalars whose truth value alone matters here
    (floats, bytes, dates). *)
Definition addr : Type := nat.

Inductive pyval : Type :=
  | PNone
  | PBool (b : bool)
  | PInt (n : Z)
  | PStr (s : string)
  | PScalar (truth : bool)
  | PRef (a : addr).

(** A dictionary keeps its entries in insertion order, and its keys are
    values.  Of a set or a tuple the function can only see the truth value
    and the strings it holds. *)
Inductive pyobj : Type :=
  | ODict (entries : list (pyval * pyval))
  | OList (items : list pyval)
  | OOther (truth : bool) (has : string -> bool).

(** The objects built so far, by address. *)
Abbreviation heap := (gmap addr pyobj).

(** [v == k] for a string [k]: only an equal string is. *)
Definition is_key (k : string) (v : pyval) : bool :=
  match v with
  | PStr s => str_eqb k s
  | _ => false
  end.

(** The value of the key [k] among the entries of a dictionary. *)
Fixpoint entries_get (k : string) (entries : list (pyval * pyval)) : option pyval :=
  match entries with
  | [] => None
  | (k', v) :: rest => if is_key k k' then Some v else entries_get k rest
  end.

(** The entries after [d[k] = v]: the value of an existing key is replaced
    where it stands, a new key is added at the end. *)
Fixpoint entries_set (k : string) (v : pyval) (entries : list (pyval * pyval))
    : list (pyval * pyval) :=
  match entries with
  | [] => [(PStr k, v)]
  | (k', v') :: rest =>
      if is_key k k' then (k', v) :: rest else (k', v') :: entries_set k v rest
  end.

(** The object at an address.  Python has no reference to an object that
    does not exist; the model raises there. *)
Definition deref (a : addr) : M heap pyobj :=
  fun h => match h !! a with
           | Some o => (Ok o, h)
           | None => (Raise (Exn OtherException "no such object"), h)
           end.

(** A new object: its address is one the heap does not hold. *)
Definition alloc (o : pyobj) : M heap pyval :=
  fun h => let a := fresh (dom h) in (Ok (PRef a), <[a := o]> h).

(** Truth value: [if v:] and [not v]. *)
Definition heap_truthy (v : pyval) : M heap bool :=
  match v with
  | PNone => ret false
  | PBool b => ret b
  | PInt n => ret (negb (n =? 0))
  | PStr s => ret (nonempty s)
  | PScalar truth => ret truth
  | PRef a =>
      o <- deref a ;;
      ret (match o with
           | ODict entries => match entries with [] => false | _ => true end
           | OList items => match items with [] => false | _ => true end
           | OOther truth _ => truth
           end)
  end.

(** [s in v]: a key of a dictionary, an element of a list, a set or a
    tuple, a substring of a string; nothing else can be searched. *)
Definition heap_in (s : string) (v : pyval) : M heap bool :=
  match v with
  | PStr t => ret (contains s t)
  | PRef a =>
      o <- deref a ;;
      ret (match o with
           | ODict entries =>
               match entries_get s entries with Some _ => true | None => false end
           | OList items => existsb (is_key s) items
           | OOther _ has => has s
           end)
  | _ => raise (Exn TypeError "argument is not iterable")
  end.

(** [v.get(k, default)]: only a dictionary has [get]; the default is
    evaluated once the attribute is found, before the call. *)
Definition heap_get (v : pyval) (k : string) (default : M heap pyval) : M heap pyval :=
  match v with
  | PRef a =>
      o <- deref a ;;
      match o with
      | ODict _ =>
          d <- default ;;
          o <- deref a ;;
          ret (match o with
               | ODict entries =>
                   match entries_get k entries with Some x => x | None => d end
               | _ => d
               end)
      | _ => raise (Exn AttributeError "object has no attribute 'get'")
      end
  | _ => raise (Exn AttributeError "object has no attribute 'get'")
  end.

(** [v.items()]: only a dictionary has [items].  The view is given as the
    address of the dictionary and the entries it has now. *)
Definition heap_items (v : pyval) : M heap (addr * list (pyval * pyval)) :=
  match v with
  | PRef a =>
      o <- deref a ;;
      match o with
      | ODict entries => ret (a, entries)
      | _ => raise (Exn AttributeError "object has no attribute 'items'")
      end
  | _ => raise (Exn AttributeError "object has no attribute 'items'")
  end.

(** [v[k] = x] for a string [k]: on a dictionary, which is updated where it
    stands. *)
Definition heap_setitem (v : pyval) (k : string) (x : pyval) : M heap unit :=
  match v with
  | PRef a =>
      o <- deref a ;;
      match o with
      | ODict entries => modify (fun h => <[a := ODict (entries_set k x entries)]> h)
      | _ => raise (Exn TypeError "object does not support item assignment")
      end
  | _ => raise (Exn TypeError "object does not support item assignment")
  end.

(** What the iterator of a dictionary does first at every step, the last
    included: it raises RuntimeError when the dictionary has no longer the
    size it had when the iteration began. *)
Definition check_size (a : addr) (size : nat) : M heap unit :=
  o <- deref a ;;
  match o with
  | ODict entries =>
      if Nat.eqb (length entries) size then ret tt
      else raise (Exn OtherException "dictionary changed size during iteration")
  | _ => ret tt
  end.

(** [for x in items: body x], where every step of the iterator begins with
    [next]. *)
Fixpoint for_items {St A} (next : M St unit) (items : list A) (body : A -> M St unit)
    : M St unit :=
  next ;;
  match items with
  | [] => ret tt
  | x :: rest => body x ;; for_items next rest body
  end.

(** The dictionary display of the health check: the list is built first. *)
Definition new_healthcheck : M heap pyval :=
  test <- alloc (OList [PStr "CMD"; PStr "curl"; PStr "-f";
                        PStr "http://localhost/ || exit 1"]) ;;
  alloc (ODict [(PStr "test", test);
                (PStr "interval", PStr "30s");
                (PStr "timeout", PStr "10s");
                (PStr "retries", PInt 3);
                (PStr "start_period", PStr "40s")]).

(** The body of the loop over the services; the local variable is
    [modified]. *)
Definition add_healthcheck (service : pyval) : M (bool * heap) unit :=
  has_healthcheck <- outer (heap_in "healthcheck" service) ;;
  needs <- (if has_healthcheck : bool then ret false
            else image <- outer (heap_get service "image" (ret PNone)) ;;
                 outer (heap_truthy image)) ;;
  when needs (
    healthcheck <- outer new_healthcheck ;;
    outer (heap_setitem service "healthcheck" healthcheck) ;;
    local (modify (fun _ => true))).

(** The loop over [services.items()]; its value is [modified]. *)
Definition add_healthchecks (services : pyval) : M heap bool :=
  view <- heap_items services ;;
  with_local false
    (for_items (outer (check_size (fst view) (length (snd view)))) (snd view)
       (fun entry => add_healthcheck (snd entry))).

(** PyYAML, taken as given.  [safe_load] gives the value a text denotes
    with the objects it has built, or [None] where the loader raises.
    [dump] gives the text the dumper writes to the stream for a value and
    its objects, and the exception with which it stops, if it does: the text
    is then what it had written before. *)
Record PyYAML : Type :=
  { safe_load : string -> option (pyval * heap);
    dump : heap -> pyval -> string * option exn }.

(** Run a block on objects of its own, which are dropped at the end. *)
Definition scoped {St L A} (l0 : L) (m : M (L * St) A) : M St A :=
  fun s => match m (l0, s) with (r, (_, s')) => (r, s') end.

(** [yaml] is the module that [import yaml] finds, if it is installed; the
    import is outside the [try].  [compose_file] is a path of the workspace.
    [open(compose_file, "w")] empties the file, and what the dumper writes
    is in the file when the [with] block is left, whether the dumper returns
    or raises.  Every exception of the [try] ends in the bare
    [except: pass], after which the function returns [False]. *)
Definition add_docker_compose_healthcheck (yaml : option PyYAML)
    (compose_file : string) : M World bool :=
  match yaml with
  | None => raise (Exn OtherException "No module named 'yaml'")
  | Some yaml =>
      outcome <-
        try_except (
          text <- read_text compose_file ;;
          match safe_load yaml text with
          | None => raise (Exn OtherException "YAMLError")
          | Some (config, objects) =>
              scoped objects (
                is_true <- local (heap_truthy config) ;;
                has_services <- (if is_true : bool
                                 then local (heap_in "services" config)
                                 else ret false) ;;
                if negb has_services then ret (Some false)
                else
                  services <- local (heap_get config "services" (alloc (ODict []))) ;;
                  modified <- local (add_healthchecks services) ;;
                  if modified : bool then
                    outer (write_text compose_file "") ;;
                    objects' <- local get ;;
                    outer (write_text compose_file (fst (dump yaml objects' config))) ;;
                    match snd (dump yaml objects' config) with
                    | Some e => raise e
                    | None => ret (Some true)
                    end
                  else ret None)
          end
        ) (fun _ => ret None) ;;
      ret (match outcome with Some b => b | None => false end)
  end.

(** The classes a registry can hold. *)
Inductive fixer_class : Type :=
  | DockerFixer
  | SecurityFixer
  | ConfigFixer
  | UserFixer (name : string).

Module FixerRegistry.

(** The class attribute [fixers]: one dictionary, shared by all callers. *)
Definition fixers : gmap string fixer_class :=
  <["config" := ConfigFixer]> (<["security" := SecurityFixer]> (<["docker" := DockerFixer]> ∅)).

Definition get_fixer (category : string) : M (gmap string fixer_class) (option fixer_class) :=
  registry <- get ;;
  ret (registry !! category).

Definition register (category : string) (cls : fixer_class)
    : M (gmap string fixer_class) unit :=
  modify (fun registry => <[category := cls]> registry).

End FixerRegistry.

(* ===================================================================== *)
(** * validators.py: the base class *)
(* ===================================================================== *)

(** [Validator.validate] of the base class raises NotImplementedError, whose
    [str] is empty. *)
Definition Validator_validate : M World (bool * string) :=
  raise (Exn OtherException "").

(** An object of the base class. *)
Definition base_validator : Validator :=
  {| class_name := "Validator"; validate := Validator_validate |}.

(* ===================================================================== *)
(** * Vocabulary of the properties *)
(* ===================================================================== *)

(** [returns m]: from every state, [m] comes back with a value. *)
Definition returns {St A} (m : M St A) : Prop :=
  forall s, exists a s', m s = (Ok a, s').

(** [keeps I m]: [m] maintains [I] on the state, whether it returns or
    raises. *)
Definition keeps {St A} (I : St -> Prop) (m : M St A) : Prop :=
  forall s, I s -> I (snd (m s)).

(** The findings that the detectors of a workspace can report. *)
Inductive reported (ws : string) : Issue -> Prop :=
  | reported_formatting : reported ws (formatting_issue ws)
  | reported_imports : reported ws (imports_issue ws)
  | reported_linting : reported ws (linting_issue ws)
  | reported_security sev f l m : reported ws (security_issue sev f l m)
  | reported_dependencies req_file n : reported ws (dependencies_issue ws req_file n)
  | reported_npm : reported ws npm_issue.

Definition is_security_issue (i : Issue) : bool := str_eqb (issue_type i) "security".

(** Whether a finding carries a non-empty remedy. *)
Definition has_remedy (i : Issue) : bool :=
  match fix_command i with
  | Some c => nonempty c
  | None => false
  end.

(** The record the design document asks for a validator's outcome: its result
    when it returns, and [passed = False] with the error text when it
    raises. *)
Definition record_of (v : Validator) (r : result (bool * string)) : ValidationRecord :=
  match r with
  | Ok (p, m) => {| validator := class_name v; passed := p; rec_message := m |}
  | Raise e => {| validator := class_name v; passed := false;
                  rec_message := "Error: " +:+ exn_str e |}
  end.

(** The report the design document asks of the chain: every validator is
    run, in order, each in the world the one before has left, whatever the
    earlier ones answered, and each contributes its record. *)
Fixpoint chain_report (vs : list Validator) (w : World) : list ValidationRecord * World :=
  match vs with
  | [] => ([], w)
  | v :: vs' =>
      let '(r, w1) := validate v w in
      let '(records, w2) := chain_report vs' w1 in
      (record_of v r :: records, w2)
  end.

(** The dictionary [issues] as the detector initialises it: no check met. *)
Definition no_check_met : gmap string value :=
  list_to_map [("multi_stage", VBool false); ("layer_caching", VBool false);
               ("security_scan", VBool false)].

(** The entries of the default [.dockerignore]. *)
Definition default_exclusions : list string :=
  [".git"; ".gitignore"; ".dockerignore"; ".env"; "node_modules"; "__pycache__";
   ".pytest_cache"; ".venv"; "build"; "dist"; "*.egg-info"; ".vscode"; ".idea"].

(** The world after [.dockerignore] has been written. *)
Definition with_dockerignore (w : World) : World :=
  {| files := <[".dockerignore" := String.concat newline default_exclusions]> (files w);
     history := history w; os := os w |}.

(** The commands of the detectors. *)
Definition black_check (ws : string) : Call :=
  {| argv := ["black"; "--check"; "--quiet"; ws]; cwd := None |}.
Definition isort_check (ws : string) : Call :=
  {| argv := ["isort"; "--check-only"; "--quiet"; ws]; cwd := None |}.
Definition pylint_files (ws : string) (py_files : list string) : Call :=
  {| argv := "pylint" :: map (joinpath ws) (firstn 10 py_files); cwd := None |}.
Definition bandit_scan (ws : string) : Call :=
  {| argv := ["bandit"; "-r"; ws; "-f"; "json"; "-q"]; cwd := None |}.
Definition pip_list_outdated : Call :=
  {| argv := ["pip"; "list"; "--outdated"; "--format"; "json"]; cwd := None |}.
Definition npm_outdated (ws : string) : Call :=
  {| argv := ["npm"; "outdated"; "--json"]; cwd := Some ws |}.

(** The commands of [fix_dependencies]. *)
Definition pip_install (ws req_file : string) : Call :=
  {| argv := ["pip"; "install"; "-r"; joinpath ws req_file; "--upgrade"]; cwd := None |}.
Definition npm_update (ws : string) : Call :=
  {| argv := ["npm"; "update"]; cwd := Some ws |}.

(** The command completes with return code 0. *)
Definition exits_zero (o : outcome) : Prop :=
  exists p, o = Completed p /\ returncode p = 0.

(** pylint prints neither "error" nor "warning", or cannot be run. *)
Definition lint_clean (o : outcome) : Prop :=
  match o with
  | Completed p =>
      contains "error" (lower (stdout p +:+ stderr p)) = false /\
      contains "warning" (lower (stdout p +:+ stderr p)) = false
  | Failed _ => True
  end.

(** The scanner prints nothing or a document with no result, or cannot be
    run. *)
Definition scan_clean (json_loads : string -> option value) (o : outcome) : Prop :=
  match o with
  | Completed p =>
      stdout p = "" \/
      exists doc, json_loads (stdout p) = Some (VDict doc) /\
                  (dict_get "results" doc = None \/ dict_get "results" doc = Some (VList []))
  | Failed _ => True
  end.

(** pip lists no outdated package, or cannot be run. *)
Definition none_outdated (json_loads : string -> option value) (o : outcome) : Prop :=
  match o with
  | Completed p =>
      stdout p = "" \/
      exists v, json_loads (stdout p) = Some v /\ truthy v = false
  | Failed _ => True
  end.

(** npm lists outdated packages. *)
Definition reports_outdated (o : outcome) : Prop :=
  exists p, o = Completed p /\ stdout p <> "" /\ stdout p <> "{}".

(** A workspace, with files [fs] and tools [tools], whose only defect is a
    [package.json] with outdated npm packages: the formatters, the linter,
    the scanner and pip have nothing to report, whenever they are asked; npm
    reports outdated packages; the upgrade commands work; and no command but
    the npm upgrade writes to the workspace. *)
Record npm_only (json_loads : string -> option value) (ws : string)
    (tools : nat -> Call -> gmap string string -> outcome * gmap string string)
    (fs : gmap string string) : Prop :=
  { has_package_json : is_Some (fs !! "package.json");
    only_upgrade_writes : forall n c, c <> npm_update ws -> snd (tools n c fs) = fs;
    black_clean : forall n, exits_zero (fst (tools n (black_check ws) fs));
    isort_clean : forall n, exits_zero (fst (tools n (isort_check ws) fs));
    pylint_clean : forall n py_files, lint_clean (fst (tools n (pylint_files ws py_files) fs));
    bandit_clean : forall n, scan_clean json_loads (fst (tools n (bandit_scan ws) fs));
    pip_clean : forall n, none_outdated json_loads (fst (tools n pip_list_outdated fs));
    npm_outdated_reports : forall n, reports_outdated (fst (tools n (npm_outdated ws) fs));
    pip_install_works : forall n req_file, exits_zero (fst (tools n (pip_install ws req_file) fs));
    npm_update_works : forall n, exits_zero (fst (tools n (npm_update ws) fs)) }.

#[global] Instance Call_eq_dec : EqDecision Call.
Proof. solve_decision. Defined.

(** The worlds of a scenario before the upgrade: the tools and the files are
    those of the scenario. *)
Definition at_rest (tools : nat -> Call -> gmap string string -> outcome * gmap string string)
    (fs : gmap string string) (w : World) : Prop :=
  os w = tools /\ files w = fs.

(** The world after a command that has written nothing. *)
Definition advance (c : Call) (w : World) : World :=
  {| files := files w; history := history w ++ [c]; os := os w |}.

(** A result of the scanner that the security detector can read: a
    dictionary whose "severity", when it has one, is a string. *)
Definition readable (v : value) : bool :=
  match v with
  | VDict d =>
      match dict_get "severity" d with
      | None | Some (VStr _) => true
      | Some _ => false
      end
  | _ => false
  end.

(** The results up to the first one that cannot be read. *)
Fixpoint readable_prefix (results : list value) : list value :=
  match results with
  | [] => []
  | v :: results' => if readable v then v :: readable_prefix results' else []
  end.

(** [d.get(k, default)] on the entries of a dictionary. *)
Definition get_default (k : string) (default : value) (d : list (string * value)) : value :=
  match dict_get k d with Some x => x | None => default end.

(** The finding of a readable result. *)
Definition finding_of (v : value) : Issue :=
  match v with
  | VDict d =>
      security_issue
        (match dict_get "severity" d with Some (VStr s) => lower s | _ => "medium" end)
        (get_default "filename" (VStr "unknown") d)
        (get_default "line_number" (VInt 0) d)
        (get_default "issue_text" (VStr "Security issue detected") d)
  | _ => security_issue "medium" (VStr "unknown") (VInt 0) (VStr "Security issue detected")
  end.

(** The list under "results" of a scanner report that parses to a dictionary;
    no result otherwise. *)
Definition scan_results (report : option value) : list value :=
  match report with
  | Some (VDict doc) =>
      match dict_get "results" doc with
      | Some (VList results) => results
      | _ => []
      end
  | _ => []
  end.

(** The [git log] command of [detect_commit_quality]. *)
Definition git_log (ws : string) : Call :=
  {| argv := ["git"; "log"; "--format=%s"; "-n"; "10"]; cwd := Some ws |}.

(** The number of newline characters of a text. *)
Fixpoint newlines (s : string) : nat :=
  match s with
  | EmptyString => 0
  | String c s' =>
      if Ascii.eqb c (ascii_of_nat 10) then S (newlines s') else newlines s'
  end.




#[global] Instance pyval_eq_dec : EqDecision pyval.
Proof. solve_decision. Defined.





(** The world with the text of one file replaced. *)
Definition with_file (path text : string) (w : World) : World :=
  {| files := <[path := text]> (files w); history := history w; os := os w |}.

(** The first commands of [PythonValidator] and of [DockerValidator]. *)
Definition py_compile (ws : string) (w : World) : Call :=
  {| argv := ["python"; "-m"; "py_compile"]
               ++ map (joinpath ws) (List.filter (endswith ".py") (listing w));
     cwd := None |}.
Definition docker_build (ws : string) : Call :=
  {| argv := ["docker"; "build"; "-f"; joinpath ws "Dockerfile";
              "-t"; "validator:latest"; ws];
     cwd := None |}.

(** The commands of [fix_formatting]. *)
Definition black_fix (ws : string) : Call := {| argv := ["black"; ws]; cwd := None |}.
Definition isort_fix (ws : string) : Call := {| argv := ["isort"; ws]; cwd := None |}.

(** Whether a command has completed with return code 0; if not, a call with
    [check=True] raises. *)
Definition succeeded (o : outcome) : bool :=
  match o with
  | Completed p => returncode p =? 0
  | Failed _ => false
  end.

(** The commands of a list, run one after the other with [check=True]: the
    run stops at the first command that does not complete with return code
    0.  The result says whether all of them succeeded, with the world that
    the commands run have left. *)
Fixpoint run_checked (cs : list Call) (w : World) : bool * World :=
  match cs with
  | [] => (true, w)
  | c :: rest =>
      let '(o, w1) := exec c w in
      if succeeded o then run_checked rest w1 else (false, w1)
  end.

(** The commands of [fix_dependencies]: the upgrade of every requirements
    file, in the order of the listing, and then, when they all succeeded and
    the workspace has a [package.json], [npm update]. *)
Definition upgrade_all (ws : string) (w : World) : bool * World :=
  let '(installed, w1) :=
    run_checked (map (pip_install ws) (List.filter is_requirements (listing w))) w in
  if installed then
    match files w1 !! "package.json" with
    | Some _ => let '(o, w2) := exec (npm_update ws) w1 in (succeeded o, w2)
    | None => (true, w1)
    end
  else (false, w1).

(* ===================================================================== *)
(** * Example worlds *)
(* ===================================================================== *)

Definition silent : CompletedProcess :=
  {| returncode := 0; stdout := ""; stderr := "" |}.

(** Every command succeeds, prints nothing and leaves the files alone. *)
Definition all_succeed (n : nat) (c : Call) (fs : gmap string string)
    : outcome * gmap string string :=
  (Completed silent, fs).

(** A formatted Python project, with its tools installed. *)
Definition formatted_project : World :=
  {| files := {[ "main.py" := "print(1)" ]}; history := []; os := all_succeed |}.

(** A project with a Dockerfile and nothing else. *)
Definition dockerfile_only : World :=
  {| files := {[ "Dockerfile" := "FROM python:3.12" ]}; history := [];
     os := all_succeed |}.

(** A compose file that sets a database root password in clear. *)
Definition compose_with_password : World :=
  {| files := {[ "docker-compose.yml" :=
                   "services: {db: {image: mysql, environment: {MYSQL_ROOT_PASSWORD: root}}}" ]};
     history := []; os := all_succeed |}.

(** pytest exits with code 5 when it collects no test. *)
Definition no_tests_collected (n : nat) (c : Call) (fs : gmap string string)
    : outcome * gmap string string :=
  match argv c with
  | "pytest" :: _ =>
      (Completed {| returncode := 5; stdout := "no tests ran"; stderr := "" |}, fs)
  | _ => (Completed silent, fs)
  end.

(** A workspace with no file at all. *)
Definition empty_workspace : World :=
  {| files := ∅; history := []; os := no_tests_collected |}.

(** An unformatted project whose import sorter hangs: black reports, isort
    runs over its timeout. *)
Definition isort_times_out (n : nat) (c : Call) (fs : gmap string string)
    : outcome * gmap string string :=
  match argv c with
  | "black" :: _ =>
      (Completed {| returncode := 1; stdout := ""; stderr := "would reformat main.py" |}, fs)
  | "isort" :: _ =>
      (Failed (Exn TimeoutExpired "Command timed out after 30 seconds"), fs)
  | _ => (Completed silent, fs)
  end.

Definition unformatted_project : World :=
  {| files := {[ "main.py" := "print( 1 )" ]}; history := []; os := isort_times_out |}.

Definition quote : string := String (ascii_of_nat 34) EmptyString.

(** npm has outdated packages to report and can upgrade them; every other
    tool is content. *)
Definition outdated_npm (n : nat) (c : Call) (fs : gmap string string)
    : outcome * gmap string string :=
  if decide (c = npm_outdated ".") then
    (Completed {| returncode := 1;
                  stdout := "{" +:+ quote +:+ "lodash" +:+ quote +:+ ": {}}";
                  stderr := "" |}, fs)
  else if decide (c = npm_update ".") then
    (Completed silent, <["package-lock.json" := "{}"]> fs)
  else (Completed silent, fs).

Definition npm_project : World :=
  {| files := {[ "package.json" := "{}" ]}; history := []; os := outdated_npm |}.

(** A compose file with four services.  [web] and [api] are one dictionary,
    through a YAML alias, with an image and no health check; [db] has an
    image and a health check; [job] is built. *)
Definition compose_objects : heap :=
  <[0%nat := ODict [(PStr "version", PStr "3"); (PStr "services", PRef 1%nat)]]> (
  <[1%nat := ODict [(PStr "web", PRef 2%nat); (PStr "api", PRef 2%nat);
                    (PStr "db", PRef 3%nat); (PStr "job", PRef 4%nat)]]> (
  <[2%nat := ODict [(PStr "image", PStr "nginx")]]> (
  <[3%nat := ODict [(PStr "image", PStr "postgres"); (PStr "healthcheck", PRef 5%nat)]]> (
  <[4%nat := ODict [(PStr "build", PStr ".")]]> (
  <[5%nat := ODict [(PStr "test", PStr "pg_isready")]]> ∅))))).

(** A loader that knows this one text, and two dumpers: one that writes a
    text, one that raises before it has written anything. *)
Definition compose_load (text : string) : option (pyval * heap) :=
  if str_eqb text "compose file" then Some (PRef 0%nat, compose_objects) else None.


Definition failing_yaml : PyYAML :=
  {| safe_load := compose_load;
     dump := fun _ _ => ("", Some (Exn OtherException "maximum recursion depth exceeded")) |}.

Definition compose_project : World :=
  {| files := {[ "docker-compose.yml" := "compose file" ]}; history := [];
     os := all_succeed |}.

(* ===================================================================== *)
(** * Reasoning about computations *)
(* ===================================================================== *)

Ltac unfold_monad :=
  unfold bind, ret, raise, get, modify, try_except, with_local, when, this,
    world, local, outer, field, zoom, append in *.

Section Combinators.
Context {St : Type}.

Lemma returns_ret {A} (a : A) : returns (ret (St := St) a).
Proof. intros s. eexists _, _. reflexivity. Qed.

Lemma returns_bind {A B} (m : M St A) (k : A -> M St B) :
  returns m -> (forall a, returns (k a)) -> returns (bind m k).
Proof.
  intros Hm Hk s. unfold bind.
  destruct (Hm s) as (a & s' & ->). apply Hk.
Qed.

Lemma returns_try_except {A} (m : M St A) (h : exn -> M St A) :
  (forall e, returns (h e)) -> returns (try_except m h).
Proof.
  intros Hh s. unfold try_except.
  destruct (m s) as [[a | e] s'].
  - eexists _, _. reflexivity.
  - apply Hh.
Qed.

Lemma returns_when (c : bool) (m : M St unit) : returns m -> returns (when c m).
Proof. intros Hm. destruct c; [exact Hm | apply returns_ret]. Qed.

Lemma returns_for_each {A} (l : list A) (body : A -> M St unit) :
  (forall x, returns (body x)) -> returns (for_each l body).
Proof.
  intros Hb. induction l as [| x l IH]; simpl.
  - apply returns_ret.
  - apply returns_bind; [apply Hb | intros _; exact IH].
Qed.

Lemma returns_with_local {L} (l0 : L) (m : M (L * St) unit) :
  returns m -> returns (with_local l0 m).
Proof.
  intros Hm s. unfold with_local.
  destruct (Hm (l0, s)) as (a & [l s'] & ->). eexists _, _. reflexivity.
Qed.

Lemma returns_zoom {Sub A} (proj : St -> Sub) (upd : Sub -> St -> St) (m : M Sub A) :
  returns m -> returns (zoom proj upd m).
Proof.
  intros Hm s. unfold zoom.
  destruct (Hm (proj s)) as (a & s' & ->). eexists _, _. reflexivity.
Qed.

Lemma returns_modify (f : St -> St) : returns (modify f).
Proof. intros s. eexists _, _. reflexivity. Qed.

Lemma returns_get : returns (get (St := St)).
Proof. intros s. eexists _, _. reflexivity. Qed.

Lemma keeps_ret {A} (I : St -> Prop) (a : A) : keeps I (ret a).
Proof. intros s Hs. exact Hs. Qed.

Lemma keeps_raise {A} (I : St -> Prop) (e : exn) : keeps I (raise (A := A) e).
Proof. intros s Hs. exact Hs. Qed.

Lemma keeps_bind {A B} (I : St -> Prop) (m : M St A) (k : A -> M St B) :
  keeps I m -> (forall a, keeps I (k a)) -> keeps I (bind m k).
Proof.
  intros Hm Hk s Hs. unfold bind. specialize (Hm s Hs).
  destruct (m s) as [[a | e] s']; simpl in *.
  - apply Hk, Hm.
  - exact Hm.
Qed.

Lemma keeps_try_except {A} (I : St -> Prop) (m : M St A) (h : exn -> M St A) :
  keeps I m -> (forall e, keeps I (h e)) -> keeps I (try_except m h).
Proof.
  intros Hm Hh s Hs. unfold try_except. specialize (Hm s Hs).
  destruct (m s) as [[a | e] s']; simpl in *.
  - exact Hm.
  - apply Hh, Hm.
Qed.

Lemma keeps_when (I : St -> Prop) (c : bool) (m : M St unit) :
  keeps I m -> keeps I (when c m).
Proof. intros Hm. destruct c; [exact Hm | apply keeps_ret]. Qed.

Lemma keeps_for_each {A} (I : St -> Prop) (l : list A) (body : A -> M St unit) :
  (forall x, keeps I (body x)) -> keeps I (for_each l body).
Proof.
  intros Hb. induction l as [| x l IH]; simpl.
  - apply keeps_ret.
  - apply keeps_bind; [apply Hb | intros _; exact IH].
Qed.

End Combinators.

(** Inside a block with a local variable: what is said of the variable is
    kept by everything that only touches the outer state. *)
Lemma keeps_world {L W A} (Q : L -> Prop) (m : M W A) :
  keeps (fun s : L * W => Q (fst s)) (world m).
Proof.
  intros [l w] Hs. unfold world, outer, zoom. simpl.
  destruct (m w) as [r w']. exact Hs.
Qed.

Lemma keeps_append {W} (P : Issue -> Prop) (i : Issue) :
  P i -> keeps (fun s : list Issue * W => Forall P (fst s)) (this (append i)).
Proof.
  intros Hi [l w] Hs. simpl in *.
  apply Forall_app. split; [exact Hs | constructor; [exact Hi | constructor]].
Qed.

Lemma with_local_keeps {St L} (Q : L -> Prop) (l0 : L) (m : M (L * St) unit) :
  keeps (fun s => Q (fst s)) m -> Q l0 ->
  forall s l s', with_local l0 m s = (Ok l, s') -> Q l.
Proof.
  intros Hm H0 s l s' Hrun. unfold with_local in Hrun.
  specialize (Hm (l0, s) H0).
  destruct (m (l0, s)) as [[a | e] [l1 s1]]; simpl in *; congruence.
Qed.

(** The operations on values leave the state alone. *)
Lemma keeps_py_get {St} (I : St -> Prop) v k d : keeps I (py_get v k d).
Proof. destruct v; first [apply keeps_ret | apply keeps_raise]. Qed.

Lemma keeps_py_lower {St} (I : St -> Prop) v : keeps I (py_lower v).
Proof. destruct v; first [apply keeps_ret | apply keeps_raise]. Qed.

Lemma keeps_py_iter {St} (I : St -> Prop) v : keeps I (py_iter v).
Proof. destruct v; first [apply keeps_ret | apply keeps_raise]. Qed.

Lemma keeps_py_len {St} (I : St -> Prop) v : keeps I (py_len v).
Proof. destruct v; first [apply keeps_ret | apply keeps_raise]. Qed.

Lemma keeps_loads {St} (I : St -> Prop) json_loads text :
  keeps I (loads (St := St) json_loads text).
Proof. unfold loads. destruct (json_loads text); [apply keeps_ret | apply keeps_raise]. Qed.

Lemma returns_swallow {St} (e : exn) : returns (swallow (St := St) e).
Proof. apply returns_ret. Qed.

Lemma keeps_swallow {St} (I : St -> Prop) (e : exn) : keeps I (swallow e).
Proof. apply keeps_ret. Qed.

Lemma returns_path_exists p : returns (path_exists p).
Proof. intros w. eexists _, _. reflexivity. Qed.

Lemma returns_glob_requirements : returns glob_requirements.
Proof. intros w. eexists _, _. reflexivity. Qed.

(* ===================================================================== *)
(** * The detectors: they return, and what they report *)
(* ===================================================================== *)

Create HintDb detectors.
#[local] Hint Constructors reported : detectors.

Ltac returns_step :=
  first
    [ apply returns_with_local
    | apply returns_try_except; intros ?
    | apply returns_swallow
    | apply returns_bind; [| intros ?]
    | apply returns_when
    | apply returns_for_each; intros ?
    | apply returns_zoom
    | apply returns_ret
    | apply returns_get
    | apply returns_modify
    | apply returns_path_exists
    | apply returns_glob_requirements ].

Ltac keeps_step :=
  first
    [ apply keeps_try_except; [| intros ?]
    | apply keeps_swallow
    | apply keeps_bind; [| intros ?]
    | apply keeps_when
    | apply keeps_for_each; intros ?
    | apply keeps_world
    | apply keeps_append
    | apply keeps_ret
    | apply keeps_py_get
    | apply keeps_py_lower
    | apply keeps_py_iter
    | apply keeps_py_len
    | apply keeps_loads ].

Section DetectorFacts.
Variable json_loads : string -> option value.

Lemma detect_formatting_issues_returns self : returns (detect_formatting_issues self).
Proof. unfold detect_formatting_issues. repeat returns_step. Qed.

Lemma detect_linting_issues_returns self : returns (detect_linting_issues self).
Proof. unfold detect_linting_issues. repeat returns_step. Qed.

Lemma detect_security_issues_returns self :
  returns (detect_security_issues json_loads self).
Proof. unfold detect_security_issues. repeat returns_step. Qed.

Lemma detect_dependency_issues_returns self :
  returns (detect_dependency_issues json_loads self).
Proof.
  unfold detect_dependency_issues, check_requirements. repeat returns_step.
Qed.

Lemma detect_formatting_issues_reported self w l w' :
  detect_formatting_issues self w = (Ok l, w') ->
  Forall (reported (IssueDetector.workspace self)) l.
Proof.
  unfold detect_formatting_issues.
  apply (with_local_keeps (Forall (reported (IssueDetector.workspace self))));
    [| constructor].
  repeat keeps_step; auto with detectors.
Qed.

Lemma detect_linting_issues_reported self w l w' :
  detect_linting_issues self w = (Ok l, w') ->
  Forall (reported (IssueDetector.workspace self)) l.
Proof.
  unfold detect_linting_issues.
  apply (with_local_keeps (Forall (reported (IssueDetector.workspace self))));
    [| constructor].
  repeat keeps_step. destruct a; repeat keeps_step; auto with detectors.
Qed.

Lemma detect_security_issues_reported self w l w' :
  detect_security_issues json_loads self w = (Ok l, w') ->
  Forall (fun i => exists sev f ln m, i = security_issue sev f ln m) l.
Proof.
  unfold detect_security_issues, scan_result.
  apply (with_local_keeps
           (Forall (fun i => exists sev f ln m, i = security_issue sev f ln m)));
    [| constructor].
  repeat keeps_step. eauto.
Qed.

Lemma detect_dependency_issues_reported self w l w' :
  detect_dependency_issues json_loads self w = (Ok l, w') ->
  Forall (reported (IssueDetector.workspace self)) l.
Proof.
  unfold detect_dependency_issues, check_requirements.
  apply (with_local_keeps (Forall (reported (IssueDetector.workspace self))));
    [| constructor].
  repeat keeps_step; auto with detectors.
Qed.

End DetectorFacts.

Section RunAllDetectors.
Variable json_loads : string -> option value.

(** [run_all_detectors] runs the four detectors one after the other, each in
    the world the one before has left, and returns their findings in that
    order; it stores them in [self.issues]. *)
Lemma run_all_detectors_spec (d : IssueDetector.t) (w : World) :
  exists fmt lint sec dep w1 w2 w3 w4,
    detect_formatting_issues d w = (Ok fmt, w1) /\
    detect_linting_issues d w1 = (Ok lint, w2) /\
    detect_security_issues json_loads d w2 = (Ok sec, w3) /\
    detect_dependency_issues json_loads d w3 = (Ok dep, w4) /\
    run_all_detectors json_loads (d, w)
      = (Ok (fmt ++ lint ++ sec ++ dep),
         (IssueDetector.set_issues (fmt ++ lint ++ sec ++ dep) d, w4)).
Proof.
  destruct (detect_formatting_issues_returns d w) as (fmt & w1 & H1).
  destruct (detect_linting_issues_returns d w1) as (lint & w2 & H2).
  destruct (detect_security_issues_returns json_loads d w2) as (sec & w3 & H3).
  destruct (detect_dependency_issues_returns json_loads d w3) as (dep & w4 & H4).
  exists fmt, lint, sec, dep, w1, w2, w3, w4.
  repeat split; try assumption.
  unfold run_all_detectors. unfold_monad. simpl.
  rewrite H1. simpl. rewrite H2. simpl. rewrite H3. simpl. rewrite H4. simpl.
  rewrite <- !app_assoc. reflexivity.
Qed.

Lemma run_all_detectors_reported d w l s' :
  run_all_detectors json_loads (d, w) = (Ok l, s') ->
  Forall (reported (IssueDetector.workspace d)) l.
Proof.
  destruct (run_all_detectors_spec d w)
    as (fmt & lint & sec & dep & w1 & w2 & w3 & w4 & H1 & H2 & H3 & H4 & Hrun).
  rewrite Hrun. intros [= <- _].
  apply detect_formatting_issues_reported in H1.
  apply detect_linting_issues_reported in H2.
  apply detect_security_issues_reported in H3.
  apply detect_dependency_issues_reported in H4.
  repeat (apply Forall_app; split); try assumption.
  eapply Forall_impl; [exact H3 |].
  intros i (sev & f & ln & m & ->). constructor.
Qed.

End RunAllDetectors.

(* ===================================================================== *)
(** * The fixer: it returns, and how it counts *)
(* ===================================================================== *)

Lemma fix_formatting_returns : returns fix_formatting.
Proof. unfold fix_formatting. repeat returns_step. Qed.

Lemma fix_dependencies_returns : returns fix_dependencies.
Proof. unfold fix_dependencies. repeat returns_step. Qed.

Lemma apply_fixes_returns issues : returns (apply_fixes issues).
Proof.
  unfold apply_fixes. repeat returns_step;
    first [apply fix_formatting_returns | apply fix_dependencies_returns].
Qed.

(** [apply_fixes] looks at the findings only to see whether some have a
    formatting type and whether some have a dependency type. *)
Lemma apply_fixes_groups issues issues' :
  some (List.filter is_formatting_issue issues)
    = some (List.filter is_formatting_issue issues') ->
  some (List.filter is_dep_issue issues) = some (List.filter is_dep_issue issues') ->
  forall s, apply_fixes issues s = apply_fixes issues' s.
Proof. intros Hf Hd s. unfold apply_fixes. rewrite Hf, Hd. reflexivity. Qed.

Lemma security_not_grouped i :
  is_security_issue i = true ->
  is_formatting_issue i = false /\ is_dep_issue i = false.
Proof.
  unfold is_security_issue, str_eqb. intros H. apply bool_decide_eq_true in H.
  unfold is_formatting_issue, is_dep_issue. rewrite H. split; reflexivity.
Qed.

Lemma filter_without_security (f : Issue -> bool) issues :
  (forall i, is_security_issue i = true -> f i = false) ->
  List.filter f (List.filter (fun i => negb (is_security_issue i)) issues)
    = List.filter f issues.
Proof.
  intros Hf. induction issues as [| i issues IH]; simpl; [reflexivity |].
  destruct (is_security_issue i) eqn:E; simpl.
  - rewrite (Hf i E). exact IH.
  - rewrite IH. reflexivity.
Qed.

Lemma filter_only_security (f : Issue -> bool) issues :
  (forall i, is_security_issue i = true -> f i = false) ->
  Forall (fun i => is_security_issue i = true) issues ->
  List.filter f issues = [].
Proof.
  intros Hf Hall. induction Hall as [| i issues Hi _ IH]; simpl; [reflexivity |].
  rewrite (Hf i Hi). exact IH.
Qed.

Lemma reported_remedy ws i : reported ws i -> fixable i = true -> has_remedy i = true.
Proof. intros H. destruct H; simpl; intros; try reflexivity; discriminate. Qed.

Lemma reported_security_not_fixable ws' i :
  reported ws' i -> is_security_issue i = true -> fixable i = false.
Proof. intros H. destruct H; simpl; intros Hs; try reflexivity; discriminate Hs. Qed.

(* ===================================================================== *)
(** * Properties of the design document *)
(* ===================================================================== *)

(** ** Findings and their remedy (C1) *)

(** C1, as stated, does not hold: constructing a finding with
    [fixable = True] and no [fix_command] (the default, [None]) succeeds, and
    so does constructing one with an empty [fix_command]; the dataclass
    checks nothing at construction. *)
Lemma Issue_fixable_without_remedy :
  let absent :=
    Issue_init "formatting" "low" (VStr "setup.py") (VInt 1)
      (VStr "Code not formatted") true None in
  let empty :=
    Issue_init "formatting" "low" (VStr "setup.py") (VInt 1)
      (VStr "Code not formatted") true (Some "") in
  (fixable absent = true /\ has_remedy absent = false) /\
  (fixable empty = true /\ has_remedy empty = false).
Proof. repeat split. Qed.

(** C1, amended: the constructor of [Issue] stores [fixable] and
    [fix_command] as they are given and validates nothing; the invariant
    "fixable implies a non-empty remedy" holds of the findings that the
    detectors of [IssueDetector] report: [run_all_detectors] returns, and
    every finding it returns with [fixable = True] carries a non-empty
    [fix_command]. *)
Theorem detected_fixable_has_remedy (json_loads : string -> option value)
    (d : IssueDetector.t) (w : World) :
  (forall ty sev f l m fx cmd,
      fixable (Issue_init ty sev f l m fx cmd) = fx /\
      fix_command (Issue_init ty sev f l m fx cmd) = cmd) /\
  match run_all_detectors json_loads (d, w) with
  | (Ok found, _) =>
      Forall (fun i => fixable i = true -> has_remedy i = true) found
  | (Raise _, _) => False
  end.
Proof.
  split; [intros; split; reflexivity |].
  destruct (run_all_detectors_spec json_loads d w)
    as (fmt & lint & sec & dep & w1 & w2 & w3 & w4 & _ & _ & _ & _ & Hrun).
  pose proof (run_all_detectors_reported json_loads d w _ _ Hrun) as Hall.
  rewrite Hrun.
  eapply Forall_impl; [exact Hall |].
  intros i Hi. exact (reported_remedy _ _ Hi).
Qed.

(** ** The orchestrator always succeeds (C5) *)

(** C5: [run] returns [True] from every state of the orchestrator and the
    world.  When detection reports nothing, the state [run] leaves is the one
    detection left: the fixer object is untouched ([fixed_count] unchanged)
    and no command has been executed after the detectors' (the history and
    the files are those detection left), so the fix phase was not entered.
    When detection reports findings, [apply_fixes] runs once on them and
    [run] returns [True] whatever [apply_fixes] has counted. *)
Theorem run_always_succeeds (json_loads : string -> option value)
    (o : WorkflowOrchestrator.t) (w : World) :
  exists found d1 w1,
    run_all_detectors json_loads (WorkflowOrchestrator.detector o, w)
      = (Ok found, (d1, w1)) /\
    match found with
    | [] =>
        run json_loads (o, w)
          = (Ok true, (WorkflowOrchestrator.set_detector d1 o, w1))
    | _ :: _ =>
        exists n f2 w2,
          apply_fixes found (WorkflowOrchestrator.fixer o, w1) = (Ok n, (f2, w2)) /\
          run json_loads (o, w)
            = (Ok true,
               (WorkflowOrchestrator.set_fixer f2
                  (WorkflowOrchestrator.set_detector d1 o), w2))
    end.
Proof.
  destruct (run_all_detectors_spec json_loads (WorkflowOrchestrator.detector o) w)
    as (fmt & lint & sec & dep & w1 & w2 & w3 & w4 & _ & _ & _ & _ & Hrun).
  eexists _, _, _. split; [exact Hrun |].
  unfold run, detector_run_all_detectors, fixer_apply_fixes. unfold_monad. simpl.
  rewrite Hrun. simpl.
  destruct (fmt ++ lint ++ sec ++ dep) as [| i found] eqn:E; simpl.
  - reflexivity.
  - destruct (apply_fixes_returns (i :: found) (WorkflowOrchestrator.fixer o, w4))
      as (n & [f2 w5] & Hfix).
    exists n, f2, w5. split; [exact Hfix |].
    rewrite Hfix. reflexivity.
Qed.

(** ** Security findings are only surfaced (C6) *)

(** C6: the security detector returns, and every finding it returns has type
    "security" and [fixable = False]; [apply_fixes] behaves the same with the
    security findings of a report removed, and on a report that holds
    security findings only it executes no command and counts no fix: it
    returns the unchanged [fixed_count] and leaves the fixer and the world as
    they were. *)
Theorem security_findings_never_fixed (json_loads : string -> option value) :
  (forall d w,
      exists found w',
        detect_security_issues json_loads d w = (Ok found, w') /\
        Forall (fun i => issue_type i = "security" /\ fixable i = false) found) /\
  (forall issues s,
      apply_fixes issues s
        = apply_fixes (List.filter (fun i => negb (is_security_issue i)) issues) s) /\
  (forall issues s,
      Forall (fun i => is_security_issue i = true) issues ->
      apply_fixes issues s = (Ok (IssueFixer.fixed_count (fst s)), s)).
Proof.
  split; [| split].
  - intros d w.
    destruct (detect_security_issues_returns json_loads d w) as (found & w' & H).
    exists found, w'. split; [exact H |].
    apply detect_security_issues_reported in H.
    eapply Forall_impl; [exact H |].
    intros i (sev & f & ln & m & ->). split; reflexivity.
  - intros issues s. apply apply_fixes_groups.
    + rewrite filter_without_security; [reflexivity |].
      intros i Hi. apply (security_not_grouped i Hi).
    + rewrite filter_without_security; [reflexivity |].
      intros i Hi. apply (security_not_grouped i Hi).
  - intros issues [f w] Hall. unfold apply_fixes.
    rewrite (filter_only_security is_formatting_issue issues);
      [| intros i Hi; apply (security_not_grouped i Hi) | exact Hall].
    rewrite (filter_only_security is_dep_issue issues);
      [| intros i Hi; apply (security_not_grouped i Hi) | exact Hall].
    reflexivity.
Qed.

(** ** The validator chain is complete (C4) *)

Lemma validate_one_spec v results all_passed w :
  ValidatorChain.validate_one v ((results, all_passed), w)
    = (Ok tt,
       ((results ++ [record_of v (fst (validate v w))],
         all_passed && passed (record_of v (fst (validate v w)))),
        snd (validate v w))).
Proof.
  unfold ValidatorChain.validate_one. unfold_monad. simpl.
  destruct (validate v w) as [[[p m] | e] w1]; simpl.
  - destruct p; simpl; rewrite ?andb_true_r, ?andb_false_r; reflexivity.
  - rewrite andb_false_r. reflexivity.
Qed.

Lemma for_each_validate_one vs : forall results all_passed w,
  for_each vs ValidatorChain.validate_one ((results, all_passed), w)
    = (Ok tt,
       ((results ++ fst (chain_report vs w),
         all_passed && forallb passed (fst (chain_report vs w))),
        snd (chain_report vs w))).
Proof.
  induction vs as [| v vs IH]; intros results all_passed w; simpl.
  - unfold ret. rewrite app_nil_r, andb_true_r. reflexivity.
  - unfold bind. rewrite validate_one_spec.
    destruct (validate v w) as [r w1]; simpl.
    rewrite IH. destruct (chain_report vs w1) as [records w2]; simpl.
    rewrite <- app_assoc, andb_assoc. reflexivity.
Qed.

Lemma chain_report_length vs : forall w,
  length (fst (chain_report vs w)) = length vs.
Proof.
  induction vs as [| v vs IH]; intros w; simpl; [reflexivity |].
  destruct (validate v w) as [r w1]. specialize (IH w1).
  destruct (chain_report vs w1) as [records w2]. simpl in *. congruence.
Qed.

Lemma chain_report_lookup vs : forall w i v,
  vs !! i = Some v ->
  fst (chain_report vs w) !! i
    = Some (record_of v (fst (validate v (snd (chain_report (take i vs) w))))).
Proof.
  induction vs as [| a vs IH]; intros w i v Hi; [discriminate |].
  destruct i as [| i]; simpl in *.
  - injection Hi as ->.
    destruct (validate v w) as [r w1]. destruct (chain_report vs w1). reflexivity.
  - destruct (validate a w) as [r w1]. specialize (IH w1 i v Hi).
    destruct (chain_report vs w1) as [records w2].
    destruct (chain_report (take i vs) w1) as [records' w2']. exact IH.
Qed.

(** C4: for every list of registered validators and every world,
    [validate_all] returns (it does not raise) one record per validator, in
    the validators' order.  The [i]-th record is that of the [i]-th
    validator, run in the world the validators before it have left, whatever
    they answered: its result when it returns and, when it raises,
    [passed = False] with the error text ([record_of]).  [all_passed] is the
    conjunction of the records' [passed] flags. *)
Theorem validate_all_complete (vs : list Validator) (w : World) :
  exists all_passed records w',
    ValidatorChain.validate_all vs w = (Ok (all_passed, records), w') /\
    length records = length vs /\
    all_passed = forallb passed records /\
    (forall i v,
        vs !! i = Some v ->
        records !! i
          = Some (match fst (validate v (snd (chain_report (take i vs) w))) with
                  | Ok (p, m) =>
                      {| validator := class_name v; passed := p; rec_message := m |}
                  | Raise e =>
                      {| validator := class_name v; passed := false;
                         rec_message := "Error: " +:+ exn_str e |}
                  end)).
Proof.
  exists (forallb passed (fst (chain_report vs w))),
         (fst (chain_report vs w)), (snd (chain_report vs w)).
  split; [| split; [| split]].
  - unfold ValidatorChain.validate_all, with_local, bind, ret.
    rewrite for_each_validate_one. reflexivity.
  - apply chain_report_length.
  - reflexivity.
  - intros i v Hi. rewrite (chain_report_lookup vs w i v Hi). reflexivity.
Qed.

(** ** The docker detector (C10) *)

(** C10: in every workspace [detect_docker_best_practices] returns, leaves
    the world as it is, and its result has [found = True] and a [count]
    between 1 and 3 (the "security_scan" check is never met); when the
    workspace has no Dockerfile, all three checks are unmet and [count] is 3,
    so [found] says nothing about a defect having been detected. *)
Theorem docker_detector_always_found (w : World) :
  exists r,
    detect_docker_best_practices w = (Ok r, w) /\
    DetectionResult.found r = true /\
    1 <= DetectionResult.count r <= 3 /\
    match files w !! "Dockerfile" with
    | None =>
        DetectionResult.details r = no_check_met /\ DetectionResult.count r = 3
    | Some content =>
        DetectionResult.details r !! "multi_stage"
          = Some (VBool (contains "FROM" content && (1 <? count "FROM" content))) /\
        DetectionResult.details r !! "layer_caching"
          = Some (VBool (contains "RUN" content)) /\
        DetectionResult.details r !! "security_scan" = Some (VBool false)
    end.
Proof.
  unfold detect_docker_best_practices, path_exists, read_text. unfold_monad.
  destruct (files w !! "Dockerfile") as [content |] eqn:E; simpl.
  - rewrite E. eexists. split; [reflexivity |]. simpl.
    split; [reflexivity |].
    split; [| repeat split; reflexivity].
    destruct (contains "FROM" content && (1 <? count "FROM" content)),
      (contains "RUN" content); vm_compute; split; discriminate.
  - eexists. split; [reflexivity |]. simpl.
    split; [reflexivity |]. split; [vm_compute; split; discriminate |].
    split; reflexivity.
Qed.

(** ** Applying a fixer twice (C2, C9) *)

Lemma strip_default_ignores :
  strip default_ignores = String.concat newline default_exclusions.
Proof. reflexivity. Qed.

Lemma optimize_dockerfile_creates w :
  is_Some (files w !! "Dockerfile") ->
  files w !! ".dockerignore" = None ->
  optimize_dockerfile w = (Ok true, with_dockerignore w).
Proof.
  intros [content Hd] Hi.
  unfold optimize_dockerfile, path_exists, read_text, write_text. unfold_monad.
  rewrite Hd. simpl. rewrite Hd. simpl. rewrite Hi. simpl.
  rewrite strip_default_ignores. reflexivity.
Qed.

Lemma optimize_dockerfile_unchanged w :
  files w !! "Dockerfile" = None \/ is_Some (files w !! ".dockerignore") ->
  optimize_dockerfile w = (Ok false, w).
Proof.
  unfold optimize_dockerfile, path_exists, read_text, write_text. unfold_monad.
  intros [Hd | [ignored Hi]].
  - rewrite Hd. reflexivity.
  - destruct (files w !! "Dockerfile") as [content |] eqn:Hd; simpl; [| reflexivity].
    rewrite Hd. simpl. rewrite Hi. reflexivity.
Qed.

Lemma optimize_dockerfile_twice w :
  exists changed w1,
    optimize_dockerfile w = (Ok changed, w1) /\
    optimize_dockerfile w1 = (Ok false, w1).
Proof.
  destruct (files w !! "Dockerfile") as [content |] eqn:Hd.
  - destruct (files w !! ".dockerignore") as [ignored |] eqn:Hi.
    + exists false, w. split; apply optimize_dockerfile_unchanged; right; eauto.
    + exists true, (with_dockerignore w). split.
      * apply optimize_dockerfile_creates; eauto.
      * apply optimize_dockerfile_unchanged. right. simpl.
        rewrite lookup_insert_eq. eauto.
  - exists false, w. split; apply optimize_dockerfile_unchanged; left; assumption.
Qed.

(** C9: in a workspace with a Dockerfile and no [.dockerignore],
    [optimize_dockerfile] writes a [.dockerignore] that holds the default
    exclusion set, one entry per line, touches nothing else and reports a
    change ([True]); applied again to the workspace it has left, it changes
    nothing and reports no change ([False]). *)
Theorem docker_fix_creates_dockerignore_once (w : World) :
  is_Some (files w !! "Dockerfile") ->
  files w !! ".dockerignore" = None ->
  optimize_dockerfile w = (Ok true, with_dockerignore w) /\
  files (with_dockerignore w) !! ".dockerignore"
    = Some (String.concat newline default_exclusions) /\
  (forall p, p <> ".dockerignore" -> files (with_dockerignore w) !! p = files w !! p) /\
  optimize_dockerfile (with_dockerignore w) = (Ok false, with_dockerignore w).
Proof.
  intros Hd Hi. split; [| split; [| split]].
  - apply optimize_dockerfile_creates; assumption.
  - simpl. apply lookup_insert_eq.
  - intros p Hp. simpl. apply lookup_insert_ne. congruence.
  - apply optimize_dockerfile_unchanged. right. simpl.
    rewrite lookup_insert_eq. eauto.
Qed.

(** C9 in a project that holds a Dockerfile only. *)
Lemma dockerfile_only_fixed_once :
  optimize_dockerfile dockerfile_only = (Ok true, with_dockerignore dockerfile_only) /\
  files (with_dockerignore dockerfile_only) !! ".dockerignore"
    = Some (String.concat newline default_exclusions) /\
  (forall p, p <> ".dockerignore" ->
             files (with_dockerignore dockerfile_only) !! p = files dockerfile_only !! p) /\
  optimize_dockerfile (with_dockerignore dockerfile_only)
    = (Ok false, with_dockerignore dockerfile_only).
Proof.
  apply (docker_fix_creates_dockerignore_once dockerfile_only).
  - eexists. reflexivity.
  - reflexivity.
Defined.

(** What [fix_formatting] counts: 2 when both commands complete with return
    code 0, nothing otherwise; it never raises. *)
Lemma fix_formatting_counts (f : IssueFixer.t) (w : World) :
  let ws := IssueFixer.workspace f in
  exists fixed s1,
    fix_formatting (f, w) = (Ok fixed, s1) /\
    IssueFixer.fixed_count (fst s1)
      = IssueFixer.fixed_count f + (if fixed then 2 else 0) /\
    fixed
      = match exec {| argv := ["black"; ws]; cwd := None |} w with
        | (Completed p1, w1) =>
            (returncode p1 =? 0) &&
            match exec {| argv := ["isort"; ws]; cwd := None |} w1 with
            | (Completed p2, _) => returncode p2 =? 0
            | (Failed _, _) => false
            end
        | (Failed _, _) => false
        end.
Proof.
  unfold fix_formatting, subprocess_run. unfold_monad. simpl.
  destruct (exec _ w) as [[p1 | e1] w1]; simpl.
  - destruct (returncode p1 =? 0); simpl.
    + destruct (exec _ w1) as [[p2 | e2] w2]; simpl.
      * destruct (returncode p2 =? 0); simpl;
          eexists _, _; (split; [reflexivity |]); simpl; split; first [reflexivity | lia].
      * eexists _, _; (split; [reflexivity |]); simpl; split; first [reflexivity | lia].
    + eexists _, _; (split; [reflexivity |]); simpl; split; first [reflexivity | lia].
  - eexists _, _; (split; [reflexivity |]); simpl; split; first [reflexivity | lia].
Qed.

(** What [fix_dependencies] counts: 1 when it gets through, nothing when one
    of its commands fails; it never raises. *)
Lemma fix_dependencies_counts (f : IssueFixer.t) (w : World) :
  exists fixed s1,
    fix_dependencies (f, w) = (Ok fixed, s1) /\
    IssueFixer.fixed_count (fst s1)
      = IssueFixer.fixed_count f + (if fixed then 1 else 0).
Proof.
  unfold fix_dependencies, try_except.
  unfold bind at 1. unfold this at 1, local, zoom, get. simpl.
  unfold bind at 1. unfold world at 1, outer, zoom, glob_requirements. simpl.
  unfold bind at 1.
  match goal with |- context [for_each ?l ?body (f, w)] =>
    assert (Hloop : keeps (fun s : IssueFixer.t * World => fst s = f) (for_each l body))
      by (apply keeps_for_each; intros req_file; apply keeps_bind;
          [apply (keeps_world (fun x => x = f)) | intros; apply keeps_ret]);
    specialize (Hloop (f, w) eq_refl);
    destruct (for_each l body (f, w)) as [[[] | e] [f1 w1]]
  end; simpl in Hloop; subst f1.
  - unfold bind at 1. unfold world at 1, outer, zoom, path_exists. simpl.
    destruct (files w1 !! "package.json") as [manifest |]; simpl.
    + unfold bind at 1. unfold bind at 1.
      unfold world, outer, zoom, subprocess_run. simpl.
      destruct (exec _ w1) as [[p | e] w2]; simpl.
      * destruct (returncode p =? 0); simpl; unfold_monad; simpl;
          eexists _, _; (split; [reflexivity |]); simpl; lia.
      * unfold_monad. eexists _, _; (split; [reflexivity |]); simpl; lia.
    + unfold_monad. simpl. eexists _, _; (split; [reflexivity |]); simpl; lia.
  - unfold ret. eexists _, _; (split; [reflexivity |]); simpl; lia.
Qed.

(** The loop over the requirements files is [run_checked]. *)
Lemma install_loop_checked (f : IssueFixer.t) req_files : forall w,
  match for_each req_files (fun req_file =>
          world (subprocess_run
            ["pip"; "install"; "-r"; joinpath (IssueFixer.workspace f) req_file; "--upgrade"]
            None true) ;;
          ret tt) (f, w) with
  | (Ok _, s) =>
      run_checked (map (pip_install (IssueFixer.workspace f)) req_files) w = (true, snd s) /\
      fst s = f
  | (Raise _, s) =>
      run_checked (map (pip_install (IssueFixer.workspace f)) req_files) w = (false, snd s) /\
      fst s = f
  end.
Proof.
  induction req_files as [| r rest IH]; intros w.
  - simpl. unfold ret. simpl. split; reflexivity.
  - simpl for_each. simpl map. simpl run_checked.
    unfold bind at 1. unfold bind at 1.
    unfold world at 1, outer, zoom, subprocess_run. simpl.
    unfold pip_install at 1.
    destruct (exec _ w) as [[p | e] w1]; simpl.
    + destruct (returncode p =? 0); simpl.
      * unfold ret at 1. simpl. apply IH.
      * unfold raise. simpl. split; reflexivity.
    + unfold raise. simpl. split; reflexivity.
Qed.

(** What [fix_dependencies] returns is whether its commands all succeeded,
    and it counts one fix exactly then. *)
Lemma fix_dependencies_upgrades (f : IssueFixer.t) (w : World) :
  fix_dependencies (f, w)
  = let '(upgraded, w1) := upgrade_all (IssueFixer.workspace f) w in
    (Ok upgraded, (if upgraded then IssueFixer.add_fixed 1 f else f, w1)).
Proof.
  unfold fix_dependencies, try_except, upgrade_all.
  unfold bind at 1. unfold this at 1, local, zoom, get. simpl.
  unfold bind at 1. unfold world at 1, outer, zoom, glob_requirements. simpl.
  unfold bind at 1.
  pose proof (install_loop_checked f (List.filter is_requirements (listing w)) w) as Hloop.
  match goal with |- context [for_each ?l ?body (f, w)] =>
    change (for_each l body (f, w)) with
      (for_each l (fun req_file =>
          world (subprocess_run
            ["pip"; "install"; "-r"; joinpath (IssueFixer.workspace f) req_file; "--upgrade"]
            None true) ;;
          ret tt) (f, w))
  end.
  destruct (for_each _ _ (f, w)) as [[[] | e] [f1 w1]];
    simpl in Hloop; destruct Hloop as [-> ->].
  - unfold bind at 1. unfold world at 1, outer, zoom, path_exists. simpl.
    destruct (files w1 !! "package.json") as [manifest |]; simpl.
    + unfold bind at 1. unfold bind at 1.
      unfold world, outer, zoom, subprocess_run. simpl.
      unfold npm_update.
      destruct (exec _ w1) as [[p | e] w2]; simpl.
      * destruct (returncode p =? 0); simpl; unfold_monad; simpl; reflexivity.
      * unfold_monad. reflexivity.
    + unfold_monad. simpl. reflexivity.
  - unfold ret. reflexivity.
Qed.

(** C2, as stated, does not hold for [fix_formatting]: in a world whose
    formatters succeed and change nothing (an already formatted workspace),
    the second application in succession counts 2 fixes again. *)
Lemma fix_formatting_counts_again :
  let s0 := (IssueFixer.init ".", formatted_project) in
  exists s1 s2,
    fix_formatting s0 = (Ok true, s1) /\
    fix_formatting s1 = (Ok true, s2) /\
    files (snd s1) = files (snd s0) /\
    IssueFixer.fixed_count (fst s1) = 2 /\
    IssueFixer.fixed_count (fst s2) = IssueFixer.fixed_count (fst s1) + 2.
Proof. eexists _, _. vm_compute. repeat split. Qed.

(** C2, amended: [DockerFixer.optimize_dockerfile] is idempotent: applied a
    second time in succession it reports no change and leaves the world as it
    is, without error.  [fix_formatting] and [fix_dependencies] never raise,
    and what they add to [fixed_count] does not depend on the workspace
    having been fixed before: an application adds 2 (resp. 1) when its
    commands complete with return code 0 and nothing when one fails.  For
    [fix_formatting] the commands are black and then isort; for
    [fix_dependencies] they are those of [upgrade_all], and the world it
    leaves is the one they leave. *)
Theorem fixers_applied_again (f : IssueFixer.t) (w : World) :
  (exists changed w1,
      optimize_dockerfile w = (Ok changed, w1) /\
      optimize_dockerfile w1 = (Ok false, w1)) /\
  (exists fixed s1,
      fix_formatting (f, w) = (Ok fixed, s1) /\
      IssueFixer.fixed_count (fst s1)
        = IssueFixer.fixed_count f + (if fixed then 2 else 0) /\
      fixed
        = match exec {| argv := ["black"; IssueFixer.workspace f]; cwd := None |} w with
          | (Completed p1, w1) =>
              (returncode p1 =? 0) &&
              match exec {| argv := ["isort"; IssueFixer.workspace f]; cwd := None |} w1 with
              | (Completed p2, _) => returncode p2 =? 0
              | (Failed _, _) => false
              end
          | (Failed _, _) => false
          end) /\
  (exists fixed s1,
      fix_dependencies (f, w) = (Ok fixed, s1) /\
      IssueFixer.fixed_count (fst s1)
        = IssueFixer.fixed_count f + (if fixed then 1 else 0) /\
      (fixed, snd s1) = upgrade_all (IssueFixer.workspace f) w).
Proof.
  split; [| split].
  - apply optimize_dockerfile_twice.
  - apply fix_formatting_counts.
  - rewrite fix_dependencies_upgrades.
    destruct (upgrade_all (IssueFixer.workspace f) w) as [[] w1];
      eexists _, _; (split; [reflexivity |]); simpl; (split; [lia | reflexivity]).
Qed.

(** ** Validators and absent ecosystems (C3) *)

(** C3, as stated, does not hold: in a workspace with no file at all, hence
    with no marker file of any ecosystem, [PythonValidator] still runs
    pytest, which collects no test and exits with code 5, and reports a
    failure; [DockerValidator] passes there, with a message that says the
    validation passed. *)
Lemma validators_in_empty_workspace :
  files empty_workspace = ∅ /\
  fst (PythonValidator.validate "." empty_workspace)
    = Ok (false, "Tests failed:" +:+ newline +:+ "no tests ran") /\
  fst (DockerValidator.validate "." empty_workspace)
    = Ok (true, "Docker validation passed").
Proof. vm_compute. repeat split. Qed.

(** C3, amended: [JavaScriptValidator] answers [True] with "No JavaScript
    project found" when there is no [package.json], and [DockerValidator]
    answers [True] with "Docker validation passed" when there is neither a
    [Dockerfile] nor a [docker-compose.yml]; both do so without running a
    command (the world is left as it is). *)
Theorem validators_pass_without_marker (workspace : string) (w : World) :
  (files w !! "package.json" = None ->
   JavaScriptValidator.validate workspace w
     = (Ok (true, "No JavaScript project found"), w)) /\
  (files w !! "Dockerfile" = None ->
   files w !! "docker-compose.yml" = None ->
   DockerValidator.validate workspace w
     = (Ok (true, "Docker validation passed"), w)).
Proof.
  split.
  - intros H. unfold JavaScriptValidator.validate, path_exists. unfold_monad.
    rewrite H. reflexivity.
  - intros Hd Hc. unfold DockerValidator.validate, path_exists. unfold_monad.
    rewrite Hd. simpl. rewrite Hc. reflexivity.
Qed.

(** C3, amended, in the empty workspace. *)
Lemma validators_pass_without_marker_example :
  JavaScriptValidator.validate "." empty_workspace
    = (Ok (true, "No JavaScript project found"), empty_workspace) /\
  DockerValidator.validate "." empty_workspace
    = (Ok (true, "Docker validation passed"), empty_workspace).
Proof.
  split.
  - apply (proj1 (validators_pass_without_marker "." empty_workspace)). reflexivity.
  - apply (proj2 (validators_pass_without_marker "." empty_workspace)); reflexivity.
Defined.

(** ** Detectors degrade on failure (C7) *)

(** What the formatting detector returns, by the outcomes of its two
    commands: a command that raises ends the detector, which returns what it
    has found so far. *)
Lemma detect_formatting_issues_cases (d : IssueDetector.t) (w : World) :
  let ws := IssueDetector.workspace d in
  match exec (black_check ws) w with
  | (Failed _, w1) => detect_formatting_issues d w = (Ok [], w1)
  | (Completed p1, w1) =>
      let found := if returncode p1 =? 0 then [] else [formatting_issue ws] in
      match exec (isort_check ws) w1 with
      | (Failed _, w2) => detect_formatting_issues d w = (Ok found, w2)
      | (Completed p2, w2) =>
          detect_formatting_issues d w
            = (Ok (found ++ if returncode p2 =? 0 then [] else [imports_issue ws]), w2)
      end
  end.
Proof.
  unfold detect_formatting_issues, subprocess_run, black_check, isort_check.
  unfold_monad. simpl.
  destruct (exec _ w) as [[p1 | e1] w1]; simpl; [| reflexivity].
  destruct (returncode p1 =? 0); simpl;
    destruct (exec _ w1) as [[p2 | e2] w2]; simpl; try reflexivity;
    destruct (returncode p2 =? 0); reflexivity.
Qed.

(** The lint detector makes one call, and none without Python files. *)
Lemma detect_linting_issues_cases (d : IssueDetector.t) (w : World) :
  let ws := IssueDetector.workspace d in
  match List.filter (endswith ".py") (listing w) with
  | [] => detect_linting_issues d w = (Ok [], w)
  | py_files =>
      match exec (pylint_files ws py_files) w with
      | (Failed _, w1) => detect_linting_issues d w = (Ok [], w1)
      | (Completed p, w1) =>
          let output := lower (stdout p +:+ stderr p) in
          detect_linting_issues d w
            = (Ok (if contains "error" output || contains "warning" output
                   then [linting_issue ws] else []), w1)
      end
  end.
Proof.
  unfold detect_linting_issues, subprocess_run, pylint_files, rglob_py.
  unfold_monad. simpl.
  destruct (List.filter (endswith ".py") (listing w)) as [| py py_files]; simpl;
    [reflexivity |].
  destruct (exec _ w) as [[p | e] w1]; simpl; [| reflexivity].
  destruct (contains "error" _ || contains "warning" _); reflexivity.
Qed.

(** The security detector makes one call; when it raises, nothing is found. *)
Lemma detect_security_issues_failed json_loads (d : IssueDetector.t) (w : World) :
  match exec (bandit_scan (IssueDetector.workspace d)) w with
  | (Failed _, w1) => detect_security_issues json_loads d w = (Ok [], w1)
  | (Completed p, w1) =>
      if nonempty (stdout p) then True
      else detect_security_issues json_loads d w = (Ok [], w1)
  end.
Proof.
  unfold detect_security_issues, subprocess_run, bandit_scan.
  unfold_monad. simpl.
  destruct (exec _ w) as [[p | e] w1]; simpl; [| reflexivity].
  destruct (nonempty (stdout p)); [exact I | reflexivity].
Qed.

(** In the dependency detector a command that raises skips its own manifest
    only: the findings so far are kept and the loop goes on. *)
Lemma check_requirements_failed json_loads ws req_file (found : list Issue) (w : World) :
  match exec pip_list_outdated w with
  | (Failed _, w1) =>
      check_requirements json_loads ws req_file (found, w) = (Ok tt, (found, w1))
  | (Completed p, w1) =>
      exists found',
        check_requirements json_loads ws req_file (found, w) = (Ok tt, (found', w1))
  end.
Proof.
  unfold check_requirements, subprocess_run, pip_list_outdated, loads.
  unfold_monad. simpl.
  destruct (exec _ w) as [[p | e] w1]; simpl; [| reflexivity].
  destruct (nonempty (stdout p)); simpl; [| eexists; reflexivity].
  destruct (json_loads (stdout p)) as [v |]; simpl; [| eexists; reflexivity].
  destruct (truthy v); simpl; [| eexists; reflexivity].
  destruct v; simpl; eexists; reflexivity.
Qed.

Lemma detect_dependency_issues_cases json_loads (d : IssueDetector.t) (w : World) :
  let ws := IssueDetector.workspace d in
  match for_each (List.filter is_requirements (listing w))
                 (check_requirements json_loads ws) ([], w) with
  | (Raise _, _) => False
  | (Ok _, (found, w1)) =>
      match files w1 !! "package.json" with
      | None => detect_dependency_issues json_loads d w = (Ok found, w1)
      | Some _ =>
          match exec (npm_outdated ws) w1 with
          | (Failed _, w2) => detect_dependency_issues json_loads d w = (Ok found, w2)
          | (Completed p, w2) =>
              detect_dependency_issues json_loads d w
                = (Ok (found ++ if nonempty (stdout p) && negb (str_eqb (stdout p) "{}")
                                then [npm_issue] else []), w2)
          end
      end
  end.
Proof.
  intros ws.
  assert (Hloop : returns (for_each (List.filter is_requirements (listing w))
                                    (check_requirements json_loads ws)))
    by (unfold check_requirements; repeat returns_step).
  destruct (Hloop ([], w)) as ([] & [found w1] & Hl). rewrite Hl.
  unfold detect_dependency_issues, subprocess_run, npm_outdated, path_exists,
    glob_requirements.
  unfold_monad. simpl. fold ws. rewrite Hl. simpl.
  destruct (files w1 !! "package.json") as [manifest |]; simpl; [| reflexivity].
  destruct (exec _ w1) as [[p | e] w2]; simpl; [| reflexivity].
  destruct (nonempty (stdout p) && negb (str_eqb (stdout p) "{}")); simpl;
    rewrite ?app_nil_r; reflexivity.
Qed.

(** C7, as stated, does not hold: when isort raises a timeout after black
    has reported, the formatting detector returns the formatting finding and
    not the empty sequence. *)
Lemma formatting_found_before_timeout :
  exists p w1 w2,
    exec (black_check ".") unformatted_project = (Completed p, w1) /\
    exec (isort_check ".") w1
      = (Failed (Exn TimeoutExpired "Command timed out after 30 seconds"), w2) /\
    detect_formatting_issues (IssueDetector.init ".") unformatted_project
      = (Ok [formatting_issue "."], w2).
Proof. eexists _, _, _. vm_compute. repeat split. Qed.

(** C7, amended: no detector propagates the error of an external command
    (timeout, missing program or any other exception), and the failing call
    contributes no finding.  The lint and security detectors, which make one
    call, then return the empty sequence.  The formatting detector stops at
    the failing call and returns what it has found before it: nothing when
    black fails, the formatting finding, if any, when isort fails.  The
    dependency detector skips the manifest whose command failed and goes on.
    [run_all_detectors] returns the findings of the four detectors, each run
    in the world the one before has left, concatenated in order. *)
Theorem detectors_degrade (json_loads : string -> option value)
    (d : IssueDetector.t) (w : World) :
  let ws := IssueDetector.workspace d in
  (exists fmt lint sec dep w1 w2 w3 w4,
      detect_formatting_issues d w = (Ok fmt, w1) /\
      detect_linting_issues d w1 = (Ok lint, w2) /\
      detect_security_issues json_loads d w2 = (Ok sec, w3) /\
      detect_dependency_issues json_loads d w3 = (Ok dep, w4) /\
      run_all_detectors json_loads (d, w)
        = (Ok (fmt ++ lint ++ sec ++ dep),
           (IssueDetector.set_issues (fmt ++ lint ++ sec ++ dep) d, w4))) /\
  match exec (black_check ws) w with
  | (Failed _, w1) => detect_formatting_issues d w = (Ok [], w1)
  | (Completed p1, w1) =>
      let found := if returncode p1 =? 0 then [] else [formatting_issue ws] in
      match exec (isort_check ws) w1 with
      | (Failed _, w2) => detect_formatting_issues d w = (Ok found, w2)
      | (Completed p2, w2) =>
          detect_formatting_issues d w
            = (Ok (found ++ if returncode p2 =? 0 then [] else [imports_issue ws]), w2)
      end
  end /\
  match List.filter (endswith ".py") (listing w) with
  | [] => detect_linting_issues d w = (Ok [], w)
  | py_files =>
      match exec (pylint_files ws py_files) w with
      | (Failed _, w1) => detect_linting_issues d w = (Ok [], w1)
      | (Completed p, w1) =>
          let output := lower (stdout p +:+ stderr p) in
          detect_linting_issues d w
            = (Ok (if contains "error" output || contains "warning" output
                   then [linting_issue ws] else []), w1)
      end
  end /\
  match exec (bandit_scan ws) w with
  | (Failed _, w1) => detect_security_issues json_loads d w = (Ok [], w1)
  | (Completed p, w1) =>
      if nonempty (stdout p) then True
      else detect_security_issues json_loads d w = (Ok [], w1)
  end /\
  (forall req_file found w0,
      match exec pip_list_outdated w0 with
      | (Failed _, w1) =>
          check_requirements json_loads ws req_file (found, w0) = (Ok tt, (found, w1))
      | (Completed p, w1) =>
          exists found',
            check_requirements json_loads ws req_file (found, w0)
              = (Ok tt, (found', w1))
      end) /\
  match for_each (List.filter is_requirements (listing w))
                 (check_requirements json_loads ws) ([], w) with
  | (Raise _, _) => False
  | (Ok _, (found, w1)) =>
      match files w1 !! "package.json" with
      | None => detect_dependency_issues json_loads d w = (Ok found, w1)
      | Some _ =>
          match exec (npm_outdated ws) w1 with
          | (Failed _, w2) => detect_dependency_issues json_loads d w = (Ok found, w2)
          | (Completed p, w2) =>
              detect_dependency_issues json_loads d w
                = (Ok (found ++ if nonempty (stdout p) && negb (str_eqb (stdout p) "{}")
                                then [npm_issue] else []), w2)
          end
      end
  end.
Proof.
  intros ws.
  split; [apply run_all_detectors_spec |].
  split; [apply detect_formatting_issues_cases |].
  split; [apply detect_linting_issues_cases |].
  split; [apply detect_security_issues_failed |].
  split; [intros; apply check_requirements_failed |].
  apply detect_dependency_issues_cases.
Qed.

(** ** The npm scenario (C8) *)

Lemma exec_advance c w :
  snd (os w (length (history w)) c (files w)) = files w ->
  exec c w = (fst (os w (length (history w)) c (files w)), advance c w).
Proof.
  unfold exec, advance. destruct (os w _ c (files w)) as [o fs]. simpl.
  intros ->. reflexivity.
Qed.

Section NpmOnly.
Variable json_loads : string -> option value.
Variable ws : string.
Variable tools : nat -> Call -> gmap string string -> outcome * gmap string string.
Variable fs : gmap string string.
Hypothesis scenario : npm_only json_loads ws tools fs.

Lemma exec_at_rest c w :
  c <> npm_update ws -> at_rest tools fs w ->
  exec c w = (fst (tools (length (history w)) c fs), advance c w) /\
  at_rest tools fs (advance c w).
Proof.
  intros Hc [Ho Hf]. split.
  - rewrite exec_advance; rewrite Ho, Hf; [reflexivity |].
    apply (only_upgrade_writes _ _ _ _ scenario). exact Hc.
  - split; simpl; assumption.
Qed.

Lemma formatting_clean d w :
  IssueDetector.workspace d = ws -> at_rest tools fs w ->
  exists w1, detect_formatting_issues d w = (Ok [], w1) /\ at_rest tools fs w1.
Proof.
  intros Hd Hw.
  pose proof (detect_formatting_issues_cases d w) as H. simpl in H. rewrite Hd in H.
  destruct (exec_at_rest (black_check ws) w) as [E1 Hw1]; [discriminate | exact Hw |].
  rewrite E1 in H.
  destruct (black_clean _ _ _ _ scenario (length (history w))) as (p1 & Hp1 & Hr1).
  rewrite Hp1 in H.
  destruct (exec_at_rest (isort_check ws) (advance (black_check ws) w)) as [E2 Hw2];
    [discriminate | exact Hw1 |].
  rewrite E2 in H.
  destruct (isort_clean _ _ _ _ scenario (length (history (advance (black_check ws) w))))
    as (p2 & Hp2 & Hr2).
  rewrite Hp2 in H. rewrite Hr1, Hr2 in H. simpl in H.
  eexists. split; [exact H | exact Hw2].
Qed.

Lemma linting_clean d w :
  IssueDetector.workspace d = ws -> at_rest tools fs w ->
  exists w1, detect_linting_issues d w = (Ok [], w1) /\ at_rest tools fs w1.
Proof.
  intros Hd Hw.
  pose proof (detect_linting_issues_cases d w) as H. simpl in H. rewrite Hd in H.
  destruct (List.filter (endswith ".py") (listing w)) as [| py py_files].
  - exists w. split; assumption.
  - destruct (exec_at_rest (pylint_files ws (py :: py_files)) w) as [E Hw1];
      [discriminate | exact Hw |].
    rewrite E in H.
    pose proof (pylint_clean _ _ _ _ scenario (length (history w)) (py :: py_files)) as Hc.
    destruct (fst (tools (length (history w)) (pylint_files ws (py :: py_files)) fs))
      as [p | e].
    + destruct Hc as [He Hwarn]. rewrite He, Hwarn in H.
      eexists. split; [exact H | exact Hw1].
    + eexists. split; [exact H | exact Hw1].
Qed.

Lemma security_clean d w :
  IssueDetector.workspace d = ws -> at_rest tools fs w ->
  exists w1, detect_security_issues json_loads d w = (Ok [], w1) /\ at_rest tools fs w1.
Proof.
  intros Hd Hw.
  destruct (exec_at_rest (bandit_scan ws) w) as [E Hw1]; [discriminate | exact Hw |].
  pose proof (bandit_clean _ _ _ _ scenario (length (history w))) as Hc.
  exists (advance (bandit_scan ws) w). split; [| exact Hw1].
  unfold detect_security_issues, subprocess_run. rewrite Hd.
  fold (bandit_scan ws). unfold_monad. simpl. rewrite E.
  destruct (fst (tools (length (history w)) (bandit_scan ws) fs)) as [p | e];
    simpl; [| reflexivity].
  destruct Hc as [Hempty | (doc & Hdoc & Hres)].
  - rewrite Hempty. reflexivity.
  - destruct (nonempty (stdout p)); simpl; [| reflexivity].
    unfold loads. rewrite Hdoc. simpl.
    destruct Hres as [-> | ->]; reflexivity.
Qed.

Lemma check_requirements_clean req_file found w :
  at_rest tools fs w ->
  exists w1,
    check_requirements json_loads ws req_file (found, w) = (Ok tt, (found, w1)) /\
    at_rest tools fs w1.
Proof.
  intros Hw.
  destruct (exec_at_rest pip_list_outdated w) as [E Hw1]; [discriminate | exact Hw |].
  pose proof (pip_clean _ _ _ _ scenario (length (history w))) as Hc.
  exists (advance pip_list_outdated w). split; [| exact Hw1].
  unfold check_requirements, subprocess_run.
  fold pip_list_outdated. unfold_monad. simpl. rewrite E.
  destruct (fst (tools (length (history w)) pip_list_outdated fs)) as [p | e];
    simpl; [| reflexivity].
  destruct Hc as [Hempty | (v & Hv & Hfalse)].
  - rewrite Hempty. reflexivity.
  - destruct (nonempty (stdout p)); simpl; [| reflexivity].
    unfold loads. rewrite Hv. simpl. rewrite Hfalse. reflexivity.
Qed.

Lemma requirements_loop_clean req_files : forall found w,
  at_rest tools fs w ->
  exists w1,
    for_each req_files (check_requirements json_loads ws) (found, w)
      = (Ok tt, (found, w1)) /\
    at_rest tools fs w1.
Proof.
  induction req_files as [| req_file req_files IH]; intros found w Hw; simpl.
  - exists w. split; [reflexivity | exact Hw].
  - destruct (check_requirements_clean req_file found w Hw) as (w1 & E & Hw1).
    destruct (IH found w1 Hw1) as (w2 & E2 & Hw2).
    exists w2. split; [| exact Hw2].
    unfold bind. rewrite E. exact E2.
Qed.

Lemma dependency_npm_only d w :
  IssueDetector.workspace d = ws -> at_rest tools fs w ->
  exists w1,
    detect_dependency_issues json_loads d w = (Ok [npm_issue], w1) /\ at_rest tools fs w1.
Proof.
  intros Hd Hw.
  pose proof (detect_dependency_issues_cases json_loads d w) as H.
  simpl in H. rewrite Hd in H.
  destruct (requirements_loop_clean (List.filter is_requirements (listing w)) [] w Hw)
    as (w1 & E & Hw1).
  rewrite E in H.
  destruct (has_package_json _ _ _ _ scenario) as [manifest Hm].
  destruct Hw1 as [Ho1 Hf1]. rewrite Hf1, Hm in H.
  destruct (exec_at_rest (npm_outdated ws) w1) as [E2 Hw2];
    [discriminate | split; assumption |].
  rewrite E2 in H.
  destruct (npm_outdated_reports _ _ _ _ scenario (length (history w1)))
    as (p & Hp & Hne & Hnb).
  rewrite Hp in H.
  assert (Hout : nonempty (stdout p) && negb (str_eqb (stdout p) "{}") = true).
  { apply andb_true_intro. split.
    - destruct (stdout p); [congruence | reflexivity].
    - unfold str_eqb. rewrite bool_decide_eq_false_2; [reflexivity | exact Hnb]. }
  rewrite Hout in H. eexists. split; [exact H | exact Hw2].
Qed.

Lemma detection_npm_only d w :
  IssueDetector.workspace d = ws -> at_rest tools fs w ->
  exists w1,
    run_all_detectors json_loads (d, w)
      = (Ok [npm_issue], (IssueDetector.set_issues [npm_issue] d, w1)) /\
    at_rest tools fs w1.
Proof.
  intros Hd Hw.
  destruct (formatting_clean d w Hd Hw) as (w1 & E1 & Hw1).
  destruct (linting_clean d w1 Hd Hw1) as (w2 & E2 & Hw2).
  destruct (security_clean d w2 Hd Hw2) as (w3 & E3 & Hw3).
  destruct (dependency_npm_only d w3 Hd Hw3) as (w4 & E4 & Hw4).
  exists w4. split; [| exact Hw4].
  unfold run_all_detectors. unfold_monad. simpl.
  rewrite E1. simpl. rewrite E2. simpl. rewrite E3. simpl. rewrite E4. reflexivity.
Qed.

Lemma install_loop_works (f : IssueFixer.t) req_files : forall w,
  at_rest tools fs w ->
  exists w1,
    for_each req_files
      (fun req_file =>
         world (subprocess_run
                  ["pip"; "install"; "-r"; joinpath ws req_file; "--upgrade"] None true) ;;
         ret tt) (f, w)
      = (Ok tt, (f, w1)) /\
    at_rest tools fs w1 /\
    history w1 = history w ++ map (pip_install ws) req_files.
Proof.
  induction req_files as [| req_file req_files IH]; intros w Hw; simpl.
  - exists w. rewrite app_nil_r. repeat split; [apply Hw | apply Hw].
  - destruct (exec_at_rest (pip_install ws req_file) w) as [E Hw1];
      [discriminate | exact Hw |].
    destruct (pip_install_works _ _ _ _ scenario (length (history w)) req_file)
      as (p & Hp & Hr).
    destruct (IH _ Hw1) as (w2 & E2 & Hw2 & Hh).
    exists w2. split; [| split; [exact Hw2 |]].
    + unfold subprocess_run. fold (pip_install ws req_file).
      unfold bind at 1. unfold bind at 1. unfold world at 1, outer, zoom. simpl.
      rewrite E, Hp, Hr. simpl. unfold ret at 1. exact E2.
    + rewrite Hh. simpl. rewrite <- app_assoc. reflexivity.
Qed.

Lemma fix_dependencies_works (f : IssueFixer.t) w :
  IssueFixer.workspace f = ws -> at_rest tools fs w ->
  exists w1,
    fix_dependencies (f, w) = (Ok true, (IssueFixer.add_fixed 1 f, w1)) /\
    history w1
      = history w ++ map (pip_install ws) (List.filter is_requirements (listing w))
          ++ [npm_update ws].
Proof.
  intros Hf Hw.
  destruct (install_loop_works f (List.filter is_requirements (listing w)) w Hw)
    as (w1 & E & [Ho1 Hf1] & Hh).
  destruct (has_package_json _ _ _ _ scenario) as [manifest Hm].
  destruct (npm_update_works _ _ _ _ scenario (length (history w1))) as (p & Hp & Hr).
  unfold fix_dependencies, glob_requirements, path_exists.
  unfold try_except, bind, this, world, local, outer, zoom, get. simpl.
  rewrite Hf.
  unfold bind, world, outer, zoom in E. rewrite E. simpl.
  rewrite Hf1, Hm. simpl.
  unfold subprocess_run, exec. simpl. rewrite Ho1, Hf1.
  fold (npm_update ws).
  destruct (tools (length (history w1)) (npm_update ws) fs) as [o fs'] eqn:Et.
  simpl in Hp. subst o. simpl. rewrite Hr. simpl.
  eexists. split; [reflexivity |]. simpl. rewrite Hh, <- app_assoc. reflexivity.
Qed.

End NpmOnly.

Lemma pip_install_not_npm_update ws req_files :
  count_occ Call_eq_dec (map (pip_install ws) req_files) (npm_update ws) = 0%nat.
Proof.
  induction req_files as [| r req_files IH]; simpl; [reflexivity |].
  destruct (Call_eq_dec (pip_install ws r) (npm_update ws)) as [E | _];
    [discriminate E | exact IH].
Qed.

(** C8: in a workspace whose only defect is a [package.json] with outdated
    npm packages ([npm_only]: the other detectors' tools have nothing to
    report, npm reports outdated packages and the upgrade commands work),
    detection returns exactly one finding, of type "npm-dependencies" and
    fixable; the fix phase on that report runs [npm update] exactly once
    (after the pip upgrade of each requirements file, if there are any) and
    returns [fixed_count = 1]. *)
Theorem npm_only_one_finding_one_fix (json_loads : string -> option value)
    (ws : string) (w : World) :
  npm_only json_loads ws (os w) (files w) ->
  exists w1 w2 upgrades,
    run_all_detectors json_loads (IssueDetector.init ws, w)
      = (Ok [npm_issue],
         (IssueDetector.set_issues [npm_issue] (IssueDetector.init ws), w1)) /\
    issue_type npm_issue = "npm-dependencies" /\
    fixable npm_issue = true /\
    apply_fixes [npm_issue] (IssueFixer.init ws, w1)
      = (Ok 1, (IssueFixer.add_fixed 1 (IssueFixer.init ws), w2)) /\
    IssueFixer.fixed_count (IssueFixer.add_fixed 1 (IssueFixer.init ws)) = 1 /\
    history w2 = history w1 ++ upgrades /\
    upgrades
      = map (pip_install ws) (List.filter is_requirements (listing w1))
          ++ [npm_update ws] /\
    count_occ Call_eq_dec upgrades (npm_update ws) = 1%nat.
Proof.
  intros scenario.
  destruct (detection_npm_only json_loads ws (os w) (files w) scenario
              (IssueDetector.init ws) w eq_refl (conj eq_refl eq_refl))
    as (w1 & Hdetect & Hw1).
  destruct (fix_dependencies_works json_loads ws (os w) (files w) scenario
              (IssueFixer.init ws) w1 eq_refl Hw1)
    as (w2 & Hfix & Hh).
  exists w1, w2, (map (pip_install ws) (List.filter is_requirements (listing w1))
                    ++ [npm_update ws]).
  repeat split; try assumption.
  - unfold apply_fixes. change (List.filter is_formatting_issue [npm_issue]) with (@nil Issue).
    change (List.filter is_dep_issue [npm_issue]) with [npm_issue].
    unfold_monad. simpl. unfold_monad. rewrite Hfix. reflexivity.
  - rewrite count_occ_app, pip_install_not_npm_update.
    rewrite (count_occ_cons_eq Call_eq_dec [] (eq_refl (npm_update ws))).
    reflexivity.
Qed.

(** The scenario of C8 in a project that holds a [package.json] only. *)
Lemma npm_project_one_finding_one_fix :
  exists w1 w2 upgrades,
    run_all_detectors (fun _ => None) (IssueDetector.init ".", npm_project)
      = (Ok [npm_issue],
         (IssueDetector.set_issues [npm_issue] (IssueDetector.init "."), w1)) /\
    issue_type npm_issue = "npm-dependencies" /\
    fixable npm_issue = true /\
    apply_fixes [npm_issue] (IssueFixer.init ".", w1)
      = (Ok 1, (IssueFixer.add_fixed 1 (IssueFixer.init "."), w2)) /\
    IssueFixer.fixed_count (IssueFixer.add_fixed 1 (IssueFixer.init ".")) = 1 /\
    history w2 = history w1 ++ upgrades /\
    upgrades
      = map (pip_install ".") (List.filter is_requirements (listing w1))
          ++ [npm_update "."] /\
    count_occ Call_eq_dec upgrades (npm_update ".") = 1%nat.
Proof.
  apply (npm_only_one_finding_one_fix (fun _ => None) "." npm_project).
  split.
  - eexists. reflexivity.
  - intros n c Hc. simpl. unfold outdated_npm.
    destruct (decide (c = npm_outdated ".")); [reflexivity |].
    destruct (decide (c = npm_update ".")); [contradiction | reflexivity].
  - intros n. eexists. split; reflexivity.
  - intros n. eexists. split; reflexivity.
  - intros n py_files. split; reflexivity.
  - intros n. left. reflexivity.
  - intros n. left. reflexivity.
  - intros n. eexists. repeat split; discriminate.
  - intros n req_file. eexists. split; reflexivity.
  - intros n. eexists. split; reflexivity.
Defined.

(* ===================================================================== *)
(** * Further properties *)
(* ===================================================================== *)

(** ** Hard-coded passwords in docker-compose.yml *)

(** X1: when [docker-compose.yml] contains the literal MYSQL_ROOT_PASSWORD,
    [detect_config_issues] returns exactly one result, of category
    "docker-compose", with [found = True], severity "high" and the
    "hardcoded_passwords" check set; it reads the file only. *)
Theorem compose_password_is_high (w : World) (content : string) :
  files w !! "docker-compose.yml" = Some content ->
  contains "MYSQL_ROOT_PASSWORD" content = true ->
  exists r,
    detect_config_issues w = (Ok [r], w) /\
    DetectionResult.category r = "docker-compose" /\
    DetectionResult.found r = true /\
    DetectionResult.severity r = "high" /\
    DetectionResult.details r !! "hardcoded_passwords" = Some (VBool true) /\
    1 <= DetectionResult.count r <= 3.
Proof.
  intros Hfile Hpw.
  unfold detect_config_issues, path_exists, read_text. unfold_monad.
  rewrite Hfile. simpl. rewrite Hfile. simpl.
  rewrite Hpw. simpl. rewrite !orb_true_r.
  eexists. split; [reflexivity |]. simpl.
  destruct (contains "deploy" content), (contains "healthcheck" content);
    vm_compute; repeat split; discriminate.
Qed.

(** X1 on a compose file that sets MYSQL_ROOT_PASSWORD. *)
Lemma compose_with_password_is_high :
  exists r,
    detect_config_issues compose_with_password = (Ok [r], compose_with_password) /\
    DetectionResult.category r = "docker-compose" /\
    DetectionResult.found r = true /\
    DetectionResult.severity r = "high" /\
    DetectionResult.details r !! "hardcoded_passwords" = Some (VBool true) /\
    1 <= DetectionResult.count r <= 3.
Proof.
  apply (compose_password_is_high compose_with_password
           "services: {db: {image: mysql, environment: {MYSQL_ROOT_PASSWORD: root}}}").
  - reflexivity.
  - reflexivity.
Defined.

(** ** Validators and failing tools *)

(** X2: no validator raises.  When the first command of a validator cannot be
    run, the validator passes with its "not available" message if the
    program is missing (FileNotFoundError), and fails with the error text for
    any other exception, a timeout included. *)
Theorem validators_degrade (workspace : string) (w : World) :
  (returns (PythonValidator.validate workspace) /\
   returns (JavaScriptValidator.validate workspace) /\
   returns (DockerValidator.validate workspace)) /\
  match exec {| argv := ["python"; "-m"; "py_compile"]
                          ++ map (joinpath workspace)
                               (List.filter (endswith ".py") (listing w));
                cwd := None |} w with
  | (Failed e, w1) =>
      PythonValidator.validate workspace w
        = (Ok (if is_FileNotFoundError e
               then (true, "Python validators not available")
               else (false, "Validation error: " +:+ exn_str e)), w1)
  | (Completed _, _) => True
  end /\
  match files w !! "package.json",
        exec {| argv := ["npm"; "test"]; cwd := Some workspace |} w with
  | Some _, (Failed e, w1) =>
      JavaScriptValidator.validate workspace w
        = (Ok (if is_FileNotFoundError e
               then (true, "npm not available")
               else (false, "Validation error: " +:+ exn_str e)), w1)
  | _, _ => True
  end /\
  match files w !! "Dockerfile",
        exec {| argv := ["docker"; "build"; "-f"; joinpath workspace "Dockerfile";
                         "-t"; "validator:latest"; workspace];
                cwd := None |} w with
  | Some _, (Failed e, w1) =>
      DockerValidator.validate workspace w
        = (Ok (if is_FileNotFoundError e
               then (true, "Docker not available for validation")
               else (false, "Validation error: " +:+ exn_str e)), w1)
  | _, _ => True
  end.
Proof.
  split; [| split; [| split]].
  - unfold PythonValidator.validate, JavaScriptValidator.validate,
      DockerValidator.validate, validator_except.
    split; [| split].
    + apply returns_try_except. intros e.
      destruct (is_FileNotFoundError e); apply returns_ret.
    + apply returns_bind; [apply returns_path_exists |].
      intros [|]; simpl; [| apply returns_ret].
      apply returns_try_except. intros e.
      destruct (is_FileNotFoundError e); apply returns_ret.
    + apply returns_try_except. intros e.
      destruct (is_FileNotFoundError e); apply returns_ret.
  - unfold PythonValidator.validate, validator_except, subprocess_run, rglob_py.
    unfold_monad. simpl.
    destruct (exec _ w) as [[p | e] w1]; [exact I |].
    destruct (is_FileNotFoundError e); reflexivity.
  - unfold JavaScriptValidator.validate, validator_except, subprocess_run, path_exists.
    unfold_monad.
    destruct (files w !! "package.json") as [manifest |]; simpl;
      [| exact I].
    destruct (exec _ w) as [[p | e] w1]; [exact I |].
    destruct (is_FileNotFoundError e); reflexivity.
  - unfold DockerValidator.validate, validator_except, subprocess_run, path_exists.
    unfold_monad.
    destruct (files w !! "Dockerfile") as [dockerfile |]; simpl;
      [| exact I].
    destruct (exec _ w) as [[p | e] w1]; [exact I |].
    destruct (is_FileNotFoundError e); reflexivity.
Qed.

(** ** What the fix phase counts *)

(** X3: [apply_fixes] never raises and returns the fixer's [fixed_count] as
    it stands after the call.  The formatting fix is attempted once when the
    report has a finding of type "formatting" or "imports", the dependency
    fix once, in the state the formatting fix has left, when it has one of
    type "dependencies" or "npm-dependencies"; a formatting fix that fails
    does not keep the dependency fix from running.  The count grows by 2 for
    a formatting fix that succeeds and by 1 for a dependency fix that
    succeeds, whatever the number of findings. *)
Theorem apply_fixes_accounts (issues : list Issue) (f : IssueFixer.t) (w : World) :
  exists formatted s1 upgraded s2,
    (if some (List.filter is_formatting_issue issues)
     then fix_formatting (f, w) = (Ok formatted, s1)
     else formatted = false /\ s1 = (f, w)) /\
    (if some (List.filter is_dep_issue issues)
     then fix_dependencies s1 = (Ok upgraded, s2)
     else upgraded = false /\ s2 = s1) /\
    apply_fixes issues (f, w) = (Ok (IssueFixer.fixed_count (fst s2)), s2) /\
    IssueFixer.fixed_count (fst s2)
      = IssueFixer.fixed_count f
        + (if formatted then 2 else 0) + (if upgraded then 1 else 0).
Proof.
  unfold apply_fixes.
  destruct (some (List.filter is_formatting_issue issues)).
  - destruct (fix_formatting_counts f w) as (formatted & [f1 w1] & Hfmt & Hc1 & _).
    destruct (some (List.filter is_dep_issue issues)).
    + destruct (fix_dependencies_counts f1 w1) as (upgraded & [f2 w2] & Hdep & Hc2).
      exists formatted, (f1, w1), upgraded, (f2, w2).
      repeat split; try assumption.
      * unfold_monad. simpl. rewrite Hfmt. simpl. rewrite Hdep. reflexivity.
      * simpl in *. lia.
    + exists formatted, (f1, w1), false, (f1, w1).
      repeat split; try assumption.
      * unfold_monad. simpl. rewrite Hfmt. reflexivity.
      * simpl in *. lia.
  - destruct (some (List.filter is_dep_issue issues)).
    + destruct (fix_dependencies_counts f w) as (upgraded & [f2 w2] & Hdep & Hc2).
      exists false, (f, w), upgraded, (f2, w2).
      repeat split; try assumption.
      * unfold_monad. simpl. rewrite Hdep. reflexivity.
      * simpl in *. lia.
    + exists false, (f, w), false, (f, w).
      repeat split. simpl. lia.
Qed.

Lemma filter_by_type (g : string -> bool) (issues issues' : list Issue) :
  map issue_type issues = map issue_type issues' ->
  some (List.filter (fun i => g (issue_type i)) issues)
    = some (List.filter (fun i => g (issue_type i)) issues').
Proof.
  revert issues'. induction issues as [| i issues IH]; intros [| i' issues'] H;
    simpl in *; try discriminate; [reflexivity |].
  injection H as Hi H. rewrite Hi.
  destruct (g (issue_type i')); [reflexivity | apply IH, H].
Qed.

(** X4: [apply_fixes] reads nothing of a finding but its type: two reports
    whose findings have the same types, in the same order, are fixed alike,
    whatever their [fixable] flags and [fix_command]s say. *)
Theorem apply_fixes_reads_types_only (issues issues' : list Issue)
    (s : IssueFixer.t * World) :
  map issue_type issues = map issue_type issues' ->
  apply_fixes issues s = apply_fixes issues' s.
Proof.
  intros H. apply apply_fixes_groups.
  - exact (filter_by_type (fun t => str_in t ["formatting"; "imports"]) _ _ H).
  - exact (filter_by_type (fun t => str_in t ["dependencies"; "npm-dependencies"]) _ _ H).
Qed.

(** X4 on a formatting finding marked as not fixable. *)
Lemma unfixable_formatting_is_fixed :
  apply_fixes [Issue_init "formatting" "low" (VStr "(multiple)") (VInt 0)
                 (VStr "needs review") false None]
              (IssueFixer.init ".", formatted_project)
    = apply_fixes [formatting_issue "."] (IssueFixer.init ".", formatted_project).
Proof.
  apply (apply_fixes_reads_types_only
           [Issue_init "formatting" "low" (VStr "(multiple)") (VInt 0)
              (VStr "needs review") false None]
           [formatting_issue "."]).
  reflexivity.
Defined.

(** X5: every finding of the lint detector is marked fixable and carries a
    [fix_command], and [apply_fixes] does nothing for it: on the findings of
    [detect_linting_issues] alone it runs no command and counts no fix. *)
Theorem lint_findings_are_never_fixed (d : IssueDetector.t) (w : World) :
  exists found w',
    detect_linting_issues d w = (Ok found, w') /\
    (length found <= 1)%nat /\
    Forall (fun i => fixable i = true /\ has_remedy i = true) found /\
    forall s, apply_fixes found s = (Ok (IssueFixer.fixed_count (fst s)), s).
Proof.
  pose proof (detect_linting_issues_cases d w) as H. simpl in H.
  assert (Hlint : forall s,
             apply_fixes [linting_issue (IssueDetector.workspace d)] s
               = (Ok (IssueFixer.fixed_count (fst s)), s))
    by (intros [f w0]; reflexivity).
  assert (Hnil : forall s, apply_fixes [] s = (Ok (IssueFixer.fixed_count (fst s)), s))
    by (intros [f w0]; reflexivity).
  destruct (List.filter (endswith ".py") (listing w)) as [| py py_files].
  - exists [], w. repeat split; [exact H | simpl; lia | constructor | exact Hnil].
  - destruct (exec _ w) as [[p | e] w1].
    + simpl in H.
      destruct (contains "error" _ || contains "warning" _).
      * eexists _, _. split; [exact H |]. split; [simpl; lia |].
        split; [| exact Hlint]. repeat constructor.
      * eexists _, _. repeat split; [exact H | simpl; lia | constructor | exact Hnil].
    + eexists _, _. repeat split; [exact H | simpl; lia | constructor | exact Hnil].
Qed.

(** ** What the security detector reads *)

Lemma scan_result_readable v (found : list Issue) (w : World) :
  readable v = true ->
  scan_result v (found, w) = (Ok tt, (found ++ [finding_of v], w)).
Proof.
  destruct v as [| | | | | d]; try discriminate. simpl.
  unfold scan_result, finding_of, get_default. unfold_monad. simpl.
  destruct (dict_get "severity" d) as [[| | | s | |] |]; try discriminate;
    intros _; reflexivity.
Qed.

Lemma scan_result_unreadable v (found : list Issue) (w : World) :
  readable v = false ->
  exists e, scan_result v (found, w) = (Raise e, (found, w)).
Proof.
  unfold scan_result. unfold_monad.
  destruct v as [| | | | | d]; simpl; try (intros _; eexists; reflexivity).
  destruct (dict_get "severity" d) as [[| | | s | |] |]; try discriminate;
    intros _; eexists; reflexivity.
Qed.

Lemma scan_loop results : forall (found : list Issue) (w : World),
  exists r,
    for_each results scan_result (found, w)
      = (r, (found ++ map finding_of (readable_prefix results), w)).
Proof.
  induction results as [| v results IH]; intros found w; simpl.
  - exists (Ok tt). rewrite app_nil_r. reflexivity.
  - unfold bind. destruct (readable v) eqn:E.
    + rewrite (scan_result_readable v found w E).
      destruct (IH (found ++ [finding_of v]) w) as (r & Hr).
      exists r. rewrite Hr. simpl. rewrite <- app_assoc. reflexivity.
    + destruct (scan_result_unreadable v found w E) as (e & He).
      exists (Raise e). rewrite He. simpl. rewrite app_nil_r. reflexivity.
Qed.

Lemma scan_loop_unreadable_head results (found : list Issue) (w : World) :
  readable_prefix results = [] ->
  exists r, for_each results scan_result (found, w) = (r, (found, w)).
Proof.
  intros H. destruct (scan_loop results found w) as (r & Hr).
  exists r. rewrite Hr, H. simpl. rewrite app_nil_r. reflexivity.
Qed.

Lemma chars_unreadable s : readable_prefix (chars s) = [].
Proof. destruct s; reflexivity. Qed.

Lemma keys_unreadable (d : list (string * value)) :
  readable_prefix (map (fun kv => VStr (fst kv)) d) = [].
Proof. destruct d; reflexivity. Qed.

(** X6: what [detect_security_issues] returns is read off the scanner's
    output alone.  When the scan cannot be run, prints nothing, prints what
    does not parse, or prints a document that is not a dictionary with a list
    under "results", nothing is found.  Otherwise the results are read in
    order up to the first one that is not a dictionary or whose "severity" is
    not a string: each result read gives one finding, with its severity in
    lower case and the defaults "medium", "unknown", 0 and "Security issue
    detected" for the keys it lacks; the results after the unreadable one are
    dropped. *)
Theorem security_findings_follow_report (json_loads : string -> option value)
    (d : IssueDetector.t) (w : World) :
  detect_security_issues json_loads d w
    = match exec (bandit_scan (IssueDetector.workspace d)) w with
      | (Failed _, w1) => (Ok [], w1)
      | (Completed p, w1) =>
          (Ok (if nonempty (stdout p)
               then map finding_of
                      (readable_prefix (scan_results (json_loads (stdout p))))
               else []), w1)
      end.
Proof.
  unfold detect_security_issues, subprocess_run, bandit_scan, loads.
  unfold with_local, try_except. unfold bind at 1. unfold world at 1, outer, zoom.
  simpl.
  destruct (exec _ w) as [[p | e] w1]; simpl; [| reflexivity].
  destruct (nonempty (stdout p)); simpl; [| reflexivity].
  unfold scan_results.
  destruct (json_loads (stdout p)) as [[| | | | | doc] |]; simpl; try reflexivity.
  unfold bind, ret, raise, swallow. simpl.
  destruct (dict_get "results" doc) as [[| b | n | s | results | keys] |]; simpl;
    try reflexivity.
  - destruct (scan_loop_unreadable_head (chars s) [] w1 (chars_unreadable s))
      as ([[] | e] & ->); reflexivity.
  - destruct (scan_loop results [] w1) as ([[] | e] & ->); reflexivity.
  - destruct (scan_loop_unreadable_head _ [] w1 (keys_unreadable keys))
      as ([[] | e] & ->); reflexivity.
Qed.

(** ** Commit quality *)

Lemma split_lines_length s : length (split_lines s) = S (newlines s).
Proof.
  induction s as [| c s IH]; simpl; [reflexivity |].
  destruct (Ascii.eqb c (ascii_of_nat 10)); simpl.
  - rewrite IH. reflexivity.
  - destruct (split_lines s) as [| piece pieces]; simpl in *; [discriminate | exact IH].
Qed.

(** X7: [detect_commit_quality] never raises and reports category "git" with
    severity "low".  When [git log] cannot be run it reports nothing
    ([found = False], [count = 0], no details).  Otherwise [found] holds
    exactly when [count] is positive, [count] is the "bad_commits" detail and
    is at most "total_checked", and "total_checked" is one more than the
    number of newlines of the log, whatever the return code of git: an empty
    log is counted as one commit, and a log that ends in a newline as one
    commit more than it lists. *)
Theorem commit_quality_counts (workspace : string) (w : World) :
  exists r w1,
    detect_commit_quality workspace w = (Ok r, w1) /\
    DetectionResult.category r = "git" /\
    DetectionResult.severity r = "low" /\
    DetectionResult.found r = (0 <? DetectionResult.count r) /\
    match exec (git_log workspace) w with
    | (Failed _, w') =>
        w1 = w' /\ DetectionResult.count r = 0 /\ DetectionResult.details r = ∅
    | (Completed p, w') =>
        w1 = w' /\
        DetectionResult.details r !! "bad_commits"
          = Some (VInt (DetectionResult.count r)) /\
        DetectionResult.details r !! "total_checked"
          = Some (VInt (Z.of_nat (S (newlines (stdout p))))) /\
        0 <= DetectionResult.count r <= Z.of_nat (S (newlines (stdout p)))
    end.
Proof.
  unfold detect_commit_quality, subprocess_run, git_log. unfold_monad. simpl.
  destruct (exec _ w) as [[p | e] w1]; simpl.
  - eexists _, _. split; [reflexivity |]. simpl.
    repeat split; try reflexivity.
    + rewrite split_lines_length. reflexivity.
    + lia.
    + rewrite <- split_lines_length. apply inj_le, filter_length_le.
  - eexists _, _. split; [reflexivity |]. simpl. repeat split; reflexivity.
Qed.

(** ** Configuration issues *)

(** X8: [detect_config_issues] only reads the workspace.  Without a
    [docker-compose.yml] it returns no result.  With one it returns exactly
    one result, of category "docker-compose", also when nothing is wrong:
    [count] is the number of the three checks that fail (a password marker
    occurs in the text, the word "deploy" does not, the word "healthcheck"
    does not), [found] holds exactly when [count] is positive, and the
    severity is "high" exactly when a password marker occurs. *)
Theorem config_issues_counted (w : World) :
  match files w !! "docker-compose.yml" with
  | None => detect_config_issues w = (Ok [], w)
  | Some content =>
      let passwords := existsb (fun p => contains p content) password_markers in
      let no_limits := negb (contains "deploy" content) in
      let no_healthcheck := negb (contains "healthcheck" content) in
      exists r,
        detect_config_issues w = (Ok [r], w) /\
        DetectionResult.category r = "docker-compose" /\
        DetectionResult.details r !! "hardcoded_passwords" = Some (VBool passwords) /\
        DetectionResult.details r !! "missing_resource_limits" = Some (VBool no_limits) /\
        DetectionResult.details r !! "missing_healthcheck" = Some (VBool no_healthcheck) /\
        DetectionResult.count r
          = Z.b2z passwords + Z.b2z no_limits + Z.b2z no_healthcheck /\
        DetectionResult.found r = (0 <? DetectionResult.count r) /\
        DetectionResult.severity r = (if passwords then "high" else "medium")
  end.
Proof.
  unfold detect_config_issues, path_exists, read_text. unfold_monad.
  destruct (files w !! "docker-compose.yml") as [content |] eqn:E; simpl;
    [| reflexivity].
  rewrite E. simpl. eexists. split; [reflexivity |]. simpl.
  destruct (contains "password:" content || _), (contains "deploy" content),
    (contains "healthcheck" content); vm_compute; repeat split.
Qed.

(** ** The registry of fixers *)

(** X9: [register] followed by [get_fixer] of the same category gives the
    class registered, replacing the one that was there; the other categories
    answer as before, a category never registered answers [None], and
    [get_fixer] leaves the registry as it is. *)
Theorem registry_register_then_get (registry : gmap string fixer_class)
    (category other : string) (cls : fixer_class) :
  exists registry',
    FixerRegistry.register category cls registry = (Ok tt, registry') /\
    FixerRegistry.get_fixer category registry' = (Ok (Some cls), registry') /\
    FixerRegistry.get_fixer other registry'
      = (Ok (if decide (other = category) then Some cls else registry !! other),
         registry') /\
    FixerRegistry.get_fixer other registry = (Ok (registry !! other), registry).
Proof.
  eexists. split; [reflexivity |].
  unfold FixerRegistry.get_fixer. unfold_monad.
  rewrite lookup_insert_eq. repeat split.
  rewrite lookup_insert. destruct (decide (category = other)), (decide (other = category));
    congruence.
Qed.

Lemma detect_docker_category (w : World) :
  exists r, detect_docker_best_practices w = (Ok r, w) /\
            DetectionResult.category r = "docker".
Proof.
  unfold detect_docker_best_practices, path_exists, read_text. unfold_monad.
  destruct (files w !! "Dockerfile") as [content |] eqn:E; simpl.
  - rewrite E. eexists. split; reflexivity.
  - eexists. split; reflexivity.
Qed.

Lemma detect_config_category (w : World) :
  exists results, detect_config_issues w = (Ok results, w) /\
    Forall (fun r => DetectionResult.category r = "docker-compose") results.
Proof.
  unfold detect_config_issues, path_exists, read_text. unfold_monad.
  destruct (files w !! "docker-compose.yml") as [content |] eqn:E; simpl.
  - rewrite E. eexists. split; [reflexivity |]. repeat constructor.
  - eexists. split; [reflexivity | constructor].
Qed.

Lemma detect_commit_category (workspace : string) (w : World) :
  exists r w1, detect_commit_quality workspace w = (Ok r, w1) /\
               DetectionResult.category r = "git".
Proof.
  unfold detect_commit_quality, subprocess_run. unfold_monad. simpl.
  destruct (exec _ w) as [[p | e] w1]; simpl; eexists _, _; split; reflexivity.
Qed.

(** X10: in the registry as the module defines it, the category of the
    result of the docker detector has the docker fixer, while the categories
    of the results of the configuration detector ("docker-compose") and of
    the commit detector ("git") have no fixer: the configuration fixer is
    registered as "config". *)
Theorem detector_categories_and_registry (workspace : string) (w : World) :
  (exists r, detect_docker_best_practices w = (Ok r, w) /\
     fst (FixerRegistry.get_fixer (DetectionResult.category r) FixerRegistry.fixers)
       = Ok (Some DockerFixer)) /\
  (exists results, detect_config_issues w = (Ok results, w) /\
     Forall (fun r =>
               fst (FixerRegistry.get_fixer (DetectionResult.category r)
                      FixerRegistry.fixers) = Ok None) results) /\
  (exists r w1, detect_commit_quality workspace w = (Ok r, w1) /\
     fst (FixerRegistry.get_fixer (DetectionResult.category r) FixerRegistry.fixers)
       = Ok None) /\
  fst (FixerRegistry.get_fixer "config" FixerRegistry.fixers) = Ok (Some ConfigFixer).
Proof.
  split; [| split; [| split]].
  - destruct (detect_docker_category w) as (r & Hr & Hcat).
    exists r. split; [exact Hr |]. rewrite Hcat. reflexivity.
  - destruct (detect_config_category w) as (results & Hr & Hcat).
    exists results. split; [exact Hr |].
    eapply Forall_impl; [exact Hcat |]. intros r ->. reflexivity.
  - destruct (detect_commit_category workspace w) as (r & w1 & Hr & Hcat).
    exists r, w1. split; [exact Hr |]. rewrite Hcat. reflexivity.
  - reflexivity.
Qed.

(** ** Health checks in docker-compose.yml *)

Lemma local_run {St L A} (m : M L A) (l : L) (s : St) :
  local m (l, s) = (fst (m l), (snd (m l), s)).
Proof. unfold local, zoom. simpl. destruct (m l); reflexivity. Qed.

Lemma outer_run {St L A} (m : M St A) (l : L) (s : St) :
  outer m (l, s) = (fst (m s), (l, snd (m s))).
Proof. unfold outer, zoom. simpl. destruct (m s); reflexivity. Qed.














Lemma write_text_twice path t1 t2 w :
  snd (write_text path t2 (snd (write_text path t1 w))) = with_file path t2 w.
Proof. unfold write_text, modify, with_file. simpl. rewrite insert_insert_eq. reflexivity. Qed.


(** When [yaml.dump] raises, the compose file is lost: the function returns
    [False], as if nothing had been changed, and the file is empty. *)
Lemma compose_file_lost_when_dump_fails :
  add_docker_compose_healthcheck (Some failing_yaml) "docker-compose.yml" compose_project
  = (Ok false, with_file "docker-compose.yml" "" compose_project).
Proof. vm_compute. reflexivity. Qed.

(** X11: without PyYAML, [add_docker_compose_healthcheck] raises, the import
    being outside the [try].  With it, the function never raises and runs no
    command.  Either it returns [False] and has left the workspace as it
    was, or it has opened the compose file for writing, and no other file:
    the file then holds what [yaml.dump] has written, and the function
    returns [True] when the dump has completed and [False] when it has
    raised. *)
Theorem compose_healthcheck_file_effects (yaml : PyYAML) (compose_file : string)
    (w : World) :
  (exists e, add_docker_compose_healthcheck None compose_file w = (Raise e, w)) /\
  exists changed w',
    add_docker_compose_healthcheck (Some yaml) compose_file w = (Ok changed, w') /\
    ((changed = false /\ w' = w) \/
     (exists objects config,
        is_Some (files w !! compose_file) /\
        w' = with_file compose_file (fst (dump yaml objects config)) w /\
        changed = match snd (dump yaml objects config) with
                  | None => true
                  | Some _ => false
                  end)).
Proof.
  split; [eexists; reflexivity |].
  unfold add_docker_compose_healthcheck, read_text.
  unfold bind at 1. unfold try_except. unfold bind at 1.
  destruct (files w !! compose_file) as [text |] eqn:Hfile;
    [| eexists _, _; split; [reflexivity | left; split; reflexivity]].
  destruct (safe_load yaml text) as [[config objects] |];
    [| eexists _, _; split; [reflexivity | left; split; reflexivity]].
  unfold scoped.
  unfold bind at 1. rewrite local_run.
  destruct (heap_truthy config objects) as [[is_true | e] h1]; cbn [fst snd];
    [| eexists _, _; split; [reflexivity | left; split; reflexivity]].
  unfold bind at 1.
  assert (Hhas : exists r h2,
            (if is_true then local (heap_in "services" config) else ret false) (h1, w)
            = (r, (h2, w))).
  { destruct is_true.
    - rewrite local_run. eexists _, _. reflexivity.
    - eexists _, _. reflexivity. }
  destruct Hhas as (r & h2 & ->).
  destruct r as [has_services | e];
    [| eexists _, _; split; [reflexivity | left; split; reflexivity]].
  destruct has_services; cbn [negb];
    [| eexists _, _; split; [reflexivity | left; split; reflexivity]].
  unfold bind at 1. rewrite local_run.
  destruct (heap_get config "services" (alloc (ODict [])) h2) as [[services | e] h3];
    cbn [fst snd];
    [| eexists _, _; split; [reflexivity | left; split; reflexivity]].
  unfold bind at 1. rewrite local_run.
  destruct (add_healthchecks services h3) as [[modified | e] h4]; cbn [fst snd];
    [| eexists _, _; split; [reflexivity | left; split; reflexivity]].
  destruct modified;
    [| eexists _, _; split; [reflexivity | left; split; reflexivity]].
  unfold bind at 1. rewrite outer_run. cbn [fst snd].
  unfold bind at 1. rewrite local_run. unfold get. cbn [fst snd].
  unfold bind at 1. rewrite outer_run. cbn [fst snd].
  rewrite write_text_twice.
  exists (match snd (dump yaml h4 config) with None => true | Some _ => false end),
         (with_file compose_file (fst (dump yaml h4 config)) w).
  split.
  - destruct (snd (dump yaml h4 config)); reflexivity.
  - right. exists h4, config. split; [eauto |]. split; reflexivity.
Qed.



(** ** The registered validators *)

Lemma validator_except_returns missing : forall e, returns (validator_except missing e).
Proof. intros e. unfold validator_except. destruct (is_FileNotFoundError e); apply returns_ret. Qed.

Lemma PythonValidator_returns ws : returns (PythonValidator.validate ws).
Proof. apply returns_try_except, validator_except_returns. Qed.

Lemma JavaScriptValidator_returns ws : returns (JavaScriptValidator.validate ws).
Proof.
  apply returns_bind; [apply returns_path_exists |].
  intros [|]; simpl; [| apply returns_ret].
  apply returns_try_except, validator_except_returns.
Qed.

Lemma DockerValidator_returns ws : returns (DockerValidator.validate ws).
Proof. apply returns_try_except, validator_except_returns. Qed.

(** X13: for the validators that [ValidatorChain] registers, [validate_all]
    returns three records, named "PythonValidator", "JavaScriptValidator"
    and "DockerValidator" in this order, each carrying what the validator
    itself answered in the world the ones before have left: since none of
    the three raises, no record is an "Error: ..." record of the chain. *)
Theorem registered_chain_reports_three (workspace : string) (w : World) :
  exists py js dk w1 w2 w3,
    PythonValidator.validate workspace w = (Ok py, w1) /\
    JavaScriptValidator.validate workspace w1 = (Ok js, w2) /\
    DockerValidator.validate workspace w2 = (Ok dk, w3) /\
    ValidatorChain.validate_all (ValidatorChain.validators workspace) w
      = (Ok (fst py && fst js && fst dk,
             [ {| validator := "PythonValidator"; passed := fst py; rec_message := snd py |};
               {| validator := "JavaScriptValidator"; passed := fst js; rec_message := snd js |};
               {| validator := "DockerValidator"; passed := fst dk; rec_message := snd dk |} ]),
         w3).
Proof.
  destruct (PythonValidator_returns workspace w) as (py & w1 & Hpy).
  destruct (JavaScriptValidator_returns workspace w1) as (js & w2 & Hjs).
  destruct (DockerValidator_returns workspace w2) as (dk & w3 & Hdk).
  exists py, js, dk, w1, w2, w3. repeat split; try assumption.
  unfold ValidatorChain.validate_all, with_local, bind, ret.
  rewrite for_each_validate_one. simpl.
  rewrite Hpy. simpl. rewrite Hjs. simpl. rewrite Hdk. simpl.
  destruct py as [p1 m1], js as [p2 m2], dk as [p3 m3]. simpl.
  rewrite andb_true_r, andb_assoc. reflexivity.
Qed.

(** X14: [PythonValidator] runs pytest only after the byte-compilation of the
    Python files has exited with code 0, and [DockerValidator] checks the
    compose file only after the image build, if there is a Dockerfile, has
    exited with code 0: when the first command exits with another code, the
    validator reports the failure having run that one command. *)
Theorem validators_stop_at_first_failure (workspace : string) (w : World) :
  match exec (py_compile workspace w) w with
  | (Completed p, w1) =>
      if returncode p =? 0 then True
      else
        PythonValidator.validate workspace w
          = (Ok (false, "Python syntax errors detected"), w1) /\
        history w1 = history w ++ [py_compile workspace w]
  | (Failed _, _) => True
  end /\
  match files w !! "Dockerfile", exec (docker_build workspace) w with
  | Some _, (Completed p, w1) =>
      if returncode p =? 0 then True
      else
        DockerValidator.validate workspace w
          = (Ok (false, "Docker build failed:" +:+ newline +:+ stderr p), w1) /\
        history w1 = history w ++ [docker_build workspace]
  | _, _ => True
  end.
Proof.
  split.
  - unfold PythonValidator.validate, subprocess_run, rglob_py, py_compile.
    unfold_monad. simpl.
    destruct (exec _ w) as [[p | e] w1] eqn:E; [| exact I].
    destruct (returncode p =? 0); [exact I |]. simpl.
    split; [reflexivity |].
    unfold exec in E. destruct (os w _ _ _). injection E as _ <-. reflexivity.
  - unfold DockerValidator.validate, subprocess_run, path_exists, docker_build.
    unfold_monad.
    destruct (files w !! "Dockerfile") as [dockerfile |]; [| exact I]. simpl.
    destruct (exec _ w) as [[p | e] w1] eqn:E; [| exact I].
    destruct (returncode p =? 0); [exact I |]. simpl.
    split; [reflexivity |].
    unfold exec in E. destruct (os w _ _ _). injection E as _ <-. reflexivity.
Qed.

(** ** Bounds of the detectors *)

Lemma exec_history c w : history (snd (exec c w)) = history w ++ [c].
Proof. unfold exec. destruct (os w _ c (files w)). reflexivity. Qed.

(** X15: the lint detector runs no command in a workspace without Python
    files; otherwise it runs pylint once, on the first ten Python files of
    the workspace at most, so that what pylint would say of the others is
    never reported; it returns at most one finding. *)
Theorem lint_checks_ten_files_at_most (d : IssueDetector.t) (w : World) :
  let ws := IssueDetector.workspace d in
  let py_files := List.filter (endswith ".py") (listing w) in
  exists found w',
    detect_linting_issues d w = (Ok found, w') /\
    (length found <= 1)%nat /\
    match py_files with
    | [] => w' = w
    | _ :: _ =>
        history w' = history w ++ [pylint_files ws py_files] /\
        argv (pylint_files ws py_files)
          = "pylint" :: map (joinpath ws) (firstn 10 py_files) /\
        (length (argv (pylint_files ws py_files)) <= 11)%nat
    end.
Proof.
  intros ws py_files.
  pose proof (detect_linting_issues_cases d w) as H. simpl in H.
  fold ws py_files in H.
  destruct py_files as [| py rest] eqn:E.
  - exists [], w. repeat split; [exact H | simpl; lia].
  - pose proof (exec_history (pylint_files ws (py :: rest)) w) as Hh.
    assert (Hlen : (length (argv (pylint_files ws (py :: rest))) <= 11)%nat).
    { unfold pylint_files. cbn [argv length]. rewrite length_map.
      pose proof (firstn_le_length 10 (py :: rest)).
      pose proof (length_firstn 10 (py :: rest)). lia. }
    destruct (exec (pylint_files ws (py :: rest)) w) as [[p | e] w1]; simpl in Hh.
    + eexists _, _. split; [exact H |]. split.
      * destruct (contains "error" _ || contains "warning" _); simpl; lia.
      * repeat split; [exact Hh | exact Hlen].
    + eexists _, _. split; [exact H |]. split; [simpl; lia |].
      repeat split; [exact Hh | exact Hlen].
Qed.

Lemma check_requirements_at_most_one json_loads ws req_file (found : list Issue) (w : World) :
  exists picked w',
    check_requirements json_loads ws req_file (found, w)
      = (Ok tt, (found ++ map (fun rn => dependencies_issue ws (fst rn) (snd rn)) picked, w')) /\
    (picked = [] \/ exists n, picked = [(req_file, n)]).
Proof.
  unfold check_requirements, subprocess_run, loads. unfold_monad. simpl.
  destruct (exec _ w) as [[p | e] w1]; simpl;
    [| exists [], w1; rewrite app_nil_r; split; [reflexivity | left; reflexivity]].
  destruct (nonempty (stdout p)); simpl;
    [| exists [], w1; rewrite app_nil_r; split; [reflexivity | left; reflexivity]].
  destruct (json_loads (stdout p)) as [v |]; simpl;
    [| exists [], w1; rewrite app_nil_r; split; [reflexivity | left; reflexivity]].
  destruct (truthy v); simpl;
    [| exists [], w1; rewrite app_nil_r; split; [reflexivity | left; reflexivity]].
  destruct v; simpl;
    try (exists [], w1; rewrite app_nil_r; split; [reflexivity | left; reflexivity]);
    eexists [(req_file, _)], w1; (split; [reflexivity | right; eexists; reflexivity]).
Qed.

Lemma requirements_loop_picks json_loads ws req_files : forall (found : list Issue) (w : World),
  exists picked w',
    for_each req_files (check_requirements json_loads ws) (found, w)
      = (Ok tt, (found ++ map (fun rn => dependencies_issue ws (fst rn) (snd rn)) picked, w')) /\
    sublist (map fst picked) req_files.
Proof.
  induction req_files as [| req_file req_files IH]; intros found w; simpl.
  - exists [], w. rewrite app_nil_r. split; [reflexivity | constructor].
  - destruct (check_requirements_at_most_one json_loads ws req_file found w)
      as (first & w1 & Hfirst & Hshape).
    destruct (IH (found ++ map (fun rn => dependencies_issue ws (fst rn) (snd rn)) first) w1)
      as (picked & w2 & Hloop & Hsub).
    exists (first ++ picked), w2. split.
    + unfold bind. rewrite Hfirst, Hloop. rewrite map_app, app_assoc. reflexivity.
    + destruct Hshape as [-> | (n & ->)]; simpl.
      * apply sublist_cons, Hsub.
      * apply sublist_skip, Hsub.
Qed.

(** X16: the dependency detector reports at most one finding per
    requirements file, in the order of the files, each naming its file, and
    after them at most one npm finding: its findings number at most one more
    than the requirements files of the workspace. *)
Theorem dependency_findings_follow_manifests (json_loads : string -> option value)
    (d : IssueDetector.t) (w : World) :
  let ws := IssueDetector.workspace d in
  let req_files := List.filter is_requirements (listing w) in
  exists picked npm w',
    detect_dependency_issues json_loads d w
      = (Ok (map (fun rn => dependencies_issue ws (fst rn) (snd rn)) picked ++ npm), w') /\
    sublist (map fst picked) req_files /\
    (npm = [] \/ npm = [npm_issue]) /\
    (length (map (fun rn => dependencies_issue ws (fst rn) (snd rn)) picked ++ npm)
       <= length req_files + 1)%nat.
Proof.
  intros ws req_files.
  pose proof (detect_dependency_issues_cases json_loads d w) as H. simpl in H.
  fold ws req_files in H.
  destruct (requirements_loop_picks json_loads ws req_files [] w)
    as (picked & w1 & Hloop & Hsub).
  rewrite Hloop in H. simpl in H.
  assert (Hlen : (length picked <= length req_files)%nat).
  { apply sublist_length in Hsub. rewrite length_map in Hsub. exact Hsub. }
  destruct (files w1 !! "package.json") as [manifest |].
  - destruct (exec (npm_outdated ws) w1) as [[p | e] w2].
    + destruct (nonempty (stdout p) && negb (str_eqb (stdout p) "{}")).
      * exists picked, [npm_issue], w2. repeat split; [exact H | exact Hsub | now right |].
        rewrite length_app, length_map. simpl. lia.
      * exists picked, [], w2. repeat split; [exact H | exact Hsub | now left |].
        rewrite length_app, length_map. simpl. lia.
    + exists picked, [], w2. rewrite app_nil_r.
      repeat split; [exact H | exact Hsub | now left |]. rewrite length_map. lia.
  - exists picked, [], w1. rewrite app_nil_r.
    repeat split; [exact H | exact Hsub | now left |]. rewrite length_map. lia.
Qed.

(** ** Fixes that fail half way *)

(** X18: [fix_formatting] runs isort only after black has completed with
    return code 0, and counts only when both have: when black fails it
    returns [False] having run black alone; when isort fails after black has
    run, it returns [False] and leaves [fixed_count] as it was, although the
    workspace is as black has left it.  [fix_dependencies] likewise stops at
    the upgrade of the first requirements file when that fails, without
    upgrading the npm packages. *)
Theorem fixes_stop_at_first_failure (f : IssueFixer.t) (w : World) :
  let ws := IssueFixer.workspace f in
  (let '(o1, w1) := exec (black_fix ws) w in
   if succeeded o1 then
     let '(o2, w2) := exec (isort_fix ws) w1 in
     fix_formatting (f, w)
       = (Ok (succeeded o2),
          (if succeeded o2 then IssueFixer.add_fixed 2 f else f, w2)) /\
     history w2 = history w ++ [black_fix ws; isort_fix ws]
   else
     fix_formatting (f, w) = (Ok false, (f, w1)) /\
     history w1 = history w ++ [black_fix ws]) /\
  match List.filter is_requirements (listing w) with
  | [] => True
  | req_file :: _ =>
      let '(o1, w1) := exec (pip_install ws req_file) w in
      if succeeded o1 then True
      else
        fix_dependencies (f, w) = (Ok false, (f, w1)) /\
        history w1 = history w ++ [pip_install ws req_file]
  end.
Proof.
  intros ws. subst ws. split.
  - pose proof (exec_history (black_fix (IssueFixer.workspace f)) w) as H1.
    unfold fix_formatting, subprocess_run. unfold_monad. simpl.
    unfold black_fix, isort_fix in *.
    destruct (exec _ w) as [[p1 | e1] w1]; simpl in *;
      [| split; [reflexivity | exact H1]].
    destruct (returncode p1 =? 0); simpl; [| split; [reflexivity | exact H1]].
    pose proof (exec_history {| argv := ["isort"; IssueFixer.workspace f]; cwd := None |} w1)
      as H2.
    destruct (exec _ w1) as [[p2 | e2] w2]; simpl in *.
    + rewrite H2, H1, <- app_assoc.
      destruct (returncode p2 =? 0); simpl; split; reflexivity.
    + rewrite H2, H1, <- app_assoc. split; reflexivity.
  - destruct (List.filter is_requirements (listing w)) as [| req_file rest] eqn:E;
      [exact I |].
    pose proof (exec_history (pip_install (IssueFixer.workspace f) req_file) w) as H1.
    unfold fix_dependencies, glob_requirements, subprocess_run.
    unfold try_except, bind, this, world, local, outer, zoom, get, ret. simpl.
    rewrite E. simpl. unfold bind. simpl. unfold pip_install in *.
    destruct (exec _ w) as [[p1 | e1] w1]; simpl in *;
      [| split; [reflexivity | exact H1]].
    destruct (returncode p1 =? 0); simpl; [exact I |].
    split; [reflexivity | exact H1].
Qed.

(** ** A validator that raises *)

Lemma chain_report_app vs1 : forall vs2 w,
  chain_report (vs1 ++ vs2) w
    = (fst (chain_report vs1 w) ++ fst (chain_report vs2 (snd (chain_report vs1 w))),
       snd (chain_report vs2 (snd (chain_report vs1 w)))).
Proof.
  induction vs1 as [| v vs1 IH]; intros vs2 w; simpl.
  - destruct (chain_report vs2 w); reflexivity.
  - destruct (validate v w) as [r w1]. rewrite IH.
    destruct (chain_report vs1 w1) as [records w2]. simpl.
    destruct (chain_report vs2 w2); reflexivity.
Qed.

(** X19: a chain that holds an object of the base class [Validator], whose
    [validate] raises NotImplementedError, still runs every validator and
    returns one record each; the record of the base object has
    [passed = False] and the message "Error: ", and [all_passed] is
    [False] whatever the other validators answer. *)
Theorem base_validator_fails_the_chain (before after : list Validator) (w : World) :
  exists records w',
    ValidatorChain.validate_all (before ++ base_validator :: after) w
      = (Ok (false, records), w') /\
    length records = S (length before + length after) /\
    records !! length before
      = Some {| validator := "Validator"; passed := false; rec_message := "Error: " |}.
Proof.
  unfold ValidatorChain.validate_all, with_local, bind, ret.
  rewrite for_each_validate_one. simpl.
  rewrite chain_report_app. simpl.
  destruct (chain_report after (snd (chain_report before w))) as [rest w'] eqn:E.
  simpl. eexists _, _. split; [| split].
  - rewrite forallb_app. simpl. rewrite andb_false_r. reflexivity.
  - rewrite length_app. simpl. rewrite chain_report_length.
    pose proof (chain_report_length after (snd (chain_report before w))) as H.
    rewrite E in H. simpl in H. lia.
  - rewrite lookup_app_r; rewrite chain_report_length; [| lia].
    rewrite Nat.sub_diag. reflexivity.
Qed.
